(** * rs-dds-server: a shallow embedding of tools/dds/dds-server/rs-dds-server.cpp

    The bridge between the RealSense device registry and the DDS network:
    topic-root derivation, initialization messages, the attach and detach
    handlers of the device watcher, streaming start and the frame callback,
    and the start-up checks of [main]. *)

From Stdlib Require Import ZArith Lia Ascii String.
From stdpp Require Import base gmap list strings pretty.

Open Scope string_scope.

(* ------------------------------------------------------------------ *)
(** ** C strings *)

Definition NUL : Ascii.ascii := Ascii.ascii_of_nat 0.

(** The character at the read position of a NUL-terminated buffer:
    [std::string::data()] is terminated by a NUL since C++11. *)
Definition c_head (s : string) : Ascii.ascii :=
  match s with EmptyString => NUL | String c _ => c end.

Definition c_tail (s : string) : string :=
  match s with EmptyString => EmptyString | String _ s' => s' end.

(** [strncmp(s1, s2, n)]: compares unsigned chars until a difference, a
    NUL in both, or [n] characters. *)
Fixpoint strncmp (s1 s2 : string) (n : nat) : Z :=
  match n with
  | O => 0%Z
  | S n' =>
      let c1 := c_head s1 in
      let c2 := c_head s2 in
      if Ascii.eqb c1 c2 then
        if Ascii.eqb c1 NUL then 0%Z else strncmp (c_tail s1) (c_tail s2) n'
      else (Z.of_nat (Ascii.nat_of_ascii c1) - Z.of_nat (Ascii.nat_of_ascii c2))%Z
  end.

(** [s.erase(0, n)] *)
Definition string_erase_front (s : string) (n : nat) : string :=
  String.substring n (String.length s - n) s.

(* ------------------------------------------------------------------ *)
(** ** Device info and topic root *)

(** [topics::device_info] *)
Record device_info := {
  name : string;
  serial : string;
  product_line : string;
  locked : bool;
  topic_root : string
}.

Definition DEVICE_NAME_PREFIX : string := "Intel RealSense ".
Definition DEVICE_NAME_PREFIX_CCH : nat := 16.
Definition RS_ROOT : string := "realsense/".

(** [get_topic_root] *)
Definition get_topic_root (dev_info : device_info) : string :=
  let model_name0 := dev_info.(name) in
  let model_name :=
    if (DEVICE_NAME_PREFIX_CCH <? String.length model_name0)%nat
       && Z.eqb 0 (strncmp model_name0 DEVICE_NAME_PREFIX DEVICE_NAME_PREFIX_CCH)
    then string_erase_front model_name0 DEVICE_NAME_PREFIX_CCH
    else model_name0 in
  String.append RS_ROOT (String.append model_name (String "/"%char dev_info.(serial))).

(** A device info with only the fields [get_topic_root] reads. *)
Definition info_of (n s : string) : device_info :=
  {| name := n; serial := s; product_line := ""; locked := false; topic_root := "" |}.

(* ------------------------------------------------------------------ *)
(** ** Stream profiles, sensors, devices *)

(** The [rs2_stream] and [rs2_format] values the tool names. *)
Definition RS2_STREAM_COLOR : Z := 2.
Definition RS2_FORMAT_RGB8 : Z := 5.

(** Which of [is< video_stream_profile >] and [is< motion_stream_profile >]
    holds for a profile. *)
Inductive profile_kind := VideoProfile | MotionProfile | OtherProfile.

(** [rs2::stream_profile]: the values its accessors return (C++ [int]).
    [sp_width] and [sp_height] are those of [as< video_stream_profile >()]. *)
Record stream_profile := {
  sp_stream_name : string;
  sp_stream_index : Z;
  sp_unique_id : Z;
  sp_fps : Z;
  sp_format : Z;
  sp_stream_type : Z;
  sp_width : Z;
  sp_height : Z;
  sp_is_default : bool;
  sp_kind : profile_kind
}.

(** Which of [is< color_sensor >], [is< depth_sensor >] and
    [is< motion_sensor >] holds for a sensor. *)
Inductive sensor_kind := ColorSensor | DepthSensor | MotionSensor | OtherSensor.

(** [rs2::sensor]: its [RS2_CAMERA_INFO_NAME] and [get_stream_profiles()]. *)
Record sensor := {
  s_name : string;
  s_kind : sensor_kind;
  s_profiles : list stream_profile
}.

(** [rs2::device]: the handle that keys [device_handlers_list], its
    camera infos and [query_sensors()]. *)
Record device := {
  dev_handle : nat;
  dev_name : string;
  dev_serial : string;
  dev_product_line : string;
  dev_camera_locked : string;
  dev_sensors : list sensor
}.

(** [rs2_device_to_info].  [get_info] returns a [const char*], so
    [get_info( RS2_CAMERA_INFO_CAMERA_LOCKED ) == "YES"] compares the
    address of the device's own buffer with the address of the literal:
    they never coincide, whatever text the buffer holds, and [locked] is
    always [false].  The device record holds the values [get_info]
    returns; a device for which [get_info] throws is not modelled. *)
Definition rs2_device_to_info (dev : device) : device_info :=
  let locked_ptr_eq (info : string) : bool := false in
  let dev_info0 :=
    {| name := dev.(dev_name); serial := dev.(dev_serial);
       product_line := dev.(dev_product_line);
       locked := locked_ptr_eq dev.(dev_camera_locked); topic_root := "" |} in
  {| name := dev_info0.(name); serial := dev_info0.(serial);
     product_line := dev_info0.(product_line); locked := dev_info0.(locked);
     topic_root := get_topic_root dev_info0 |}.

(** [get_supported_streams]: the stream names of all profiles of all
    sensors, without duplicates (the order of the [unordered_set] is
    unspecified; first occurrence is used here). *)
Definition get_supported_streams (dev : device) : list string :=
  remove_dups (sp_stream_name <$> mjoin (s_profiles <$> dev.(dev_sensors))).

(* ------------------------------------------------------------------ *)
(** ** Notification messages *)

(** [static_cast< int8_t >] and [static_cast< int16_t >] (two's complement
    wrap-around). *)
Definition to_int8 (z : Z) : Z := ((z + 128) mod 256 - 128)%Z.
Definition to_int16 (z : Z) : Z := ((z + 32768) mod 65536 - 32768)%Z.

(** [topics::device::notification::video_stream_profile] *)
Record video_stream_profile := {
  v_stream_index : Z;
  v_uid : Z;
  v_framerate : Z;
  v_format : Z;
  v_type : Z;
  v_width : Z;
  v_height : Z;
  v_default_profile : bool
}.

(** [topics::device::notification::motion_stream_profile] *)
Record motion_stream_profile := {
  m_stream_index : Z;
  m_uid : Z;
  m_framerate : Z;
  m_format : Z;
  m_type : Z;
  m_default_profile : bool
}.

(** [video_stream_profiles_msg]: the group name buffer and the fixed-size
    [profiles] array, as a list of the array's length. *)
Record video_stream_profiles_msg := {
  vm_group_name : string;
  vm_profiles : list video_stream_profile;
  vm_num_of_profiles : Z
}.

Record motion_stream_profiles_msg := {
  mm_group_name : string;
  mm_profiles : list motion_stream_profile;
  mm_num_of_profiles : Z
}.

(** A raw notification, by its [msg_type] tag. *)
Inductive notification :=
  | DEVICE_HEADER (num_of_streams : nat)
  | VIDEO_STREAM_PROFILES (m : video_stream_profiles_msg)
  | MOTION_STREAM_PROFILES (m : motion_stream_profiles_msg).

(** [strcpy_s(dest, destsz, src)]: the copy needs room for the
    terminating NUL; otherwise it is a runtime-constraint violation
    ([None]). *)
Definition strcpy_s (destsz : nat) (src : string) : option string :=
  if (String.length src <? destsz)%nat then Some src else None.

(** The entry built from a video profile in [prepare_video_profiles_messeges]. *)
Definition to_video_stream_profile (vsp : stream_profile) : video_stream_profile :=
  {| v_stream_index := to_int8 vsp.(sp_stream_index);
     v_uid := to_int16 vsp.(sp_unique_id);
     v_framerate := to_int16 vsp.(sp_fps);
     v_format := vsp.(sp_format);
     v_type := vsp.(sp_stream_type);
     v_width := to_int16 vsp.(sp_width);
     v_height := to_int16 vsp.(sp_height);
     v_default_profile := vsp.(sp_is_default) |}.

Definition to_motion_stream_profile (msp : stream_profile) : motion_stream_profile :=
  {| m_stream_index := to_int8 msp.(sp_stream_index);
     m_uid := to_int16 msp.(sp_unique_id);
     m_framerate := to_int16 msp.(sp_fps);
     m_format := msp.(sp_format);
     m_type := msp.(sp_stream_type);
     m_default_profile := msp.(sp_is_default) |}.

Definition illegal_profile_log (sp : stream_profile) : string :=
  "got illegal profile with uid:" +:+ pretty sp.(sp_unique_id).

(** [profiles[index++] = ...]: a write past the end of the array is
    undefined behaviour ([None]). *)
Definition array_store {A} (arr : list A) (index : nat) (x : A) : option (list A) :=
  if (index <? length arr)%nat then Some (<[index := x]> arr) else None.

(** The loop of [prepare_video_profiles_messeges]: the array, the next
    index and the log lines. *)
Fixpoint fill_video_profiles (sps : list stream_profile) (profiles : list video_stream_profile)
    (index : nat) (log : list string) : option (list video_stream_profile * nat * list string) :=
  match sps with
  | [] => Some (profiles, index, log)
  | sp :: sps' =>
      match sp.(sp_kind) with
      | VideoProfile =>
          profiles' ← array_store profiles index (to_video_stream_profile sp);
          fill_video_profiles sps' profiles' (S index) log
      | _ => fill_video_profiles sps' profiles index (log ++ [illegal_profile_log sp])
      end
  end.

Fixpoint fill_motion_profiles (sps : list stream_profile) (profiles : list motion_stream_profile)
    (index : nat) (log : list string) : option (list motion_stream_profile * nat * list string) :=
  match sps with
  | [] => Some (profiles, index, log)
  | sp :: sps' =>
      match sp.(sp_kind) with
      | MotionProfile =>
          profiles' ← array_store profiles index (to_motion_stream_profile sp);
          fill_motion_profiles sps' profiles' (S index) log
      | _ => fill_motion_profiles sps' profiles index (log ++ [illegal_profile_log sp])
      end
  end.

Section Messages.
(** The size of the [group_name] buffer of the profiles messages. *)
Variable GROUP_NAME_SIZE : nat.

(** [prepare_video_profiles_messeges], from the message as it is before
    the call (its [profiles] array has the array's fixed length); returns
    the filled message and the log lines. *)
Definition prepare_video_profiles_messeges (sensor_name : string)
    (stream_profiles : list stream_profile) (msg : video_stream_profiles_msg)
    : option (video_stream_profiles_msg * list string) :=
  group_name ← strcpy_s GROUP_NAME_SIZE sensor_name;
  '(profiles, index, log) ← fill_video_profiles stream_profiles msg.(vm_profiles) 0 [];
  Some ({| vm_group_name := group_name; vm_profiles := profiles;
           vm_num_of_profiles := Z.of_nat index |}, log).

Definition prepare_motion_profiles_messeges (sensor_name : string)
    (stream_profiles : list stream_profile) (msg : motion_stream_profiles_msg)
    : option (motion_stream_profiles_msg * list string) :=
  group_name ← strcpy_s GROUP_NAME_SIZE sensor_name;
  '(profiles, index, log) ← fill_motion_profiles stream_profiles msg.(mm_profiles) 0 [];
  Some ({| mm_group_name := group_name; mm_profiles := profiles;
           mm_num_of_profiles := Z.of_nat index |}, log).
End Messages.

(* ------------------------------------------------------------------ *)
(** ** Bridge state and its monad *)

(** [realdds::image_header] *)
Record image_header := {
  ih_format : Z;
  ih_width : Z;
  ih_height : Z
}.

(** A [dds_device_server]: its topic root, the stream names given to
    [init], the initialization messages in the order they were added, and
    the image header set per stream (a stream with a header is started). *)
Record device_server := {
  ds_topic_root : string;
  ds_streams : list string;
  ds_init_msgs : list notification;
  ds_image_headers : gmap string image_header
}.

(** [device_handler]: servers and controllers are shared objects, named
    by their ids in the store. *)
Record device_handler := {
  dh_info : device_info;
  dh_server : nat;
  dh_controller : nat
}.

(** A received frame: the stream name of its profile and its data size. *)
Record frame := {
  f_stream_name : string;
  f_data_size : nat
}.

(** The calls the bridge makes on its collaborators, in order. *)
Inductive event :=
  | EvAddDevice (info : device_info)
  | EvRemoveDevice (info : option device_info)
  | EvSetImageHeader (server : nat) (stream_name : string) (header : image_header)
  | EvStartStream (controller : nat) (profile : stream_profile)
  | EvStopAllStreams (controller : nat)
  | EvEraseHandler (dev : nat)
  | EvPublish (server : nat) (stream_name : string) (size : nat).

(** The state the handlers act on: [device_handlers_list], the store of
    servers, the next fresh object id, the broadcaster's announced
    devices, the frame callbacks registered with the controllers
    (controller, stream name, server the callback publishes to), the trace
    of collaborator calls and the error log. *)
Record world := {
  w_handlers : gmap nat device_handler;
  w_servers : gmap nat device_server;
  w_next_id : nat;
  w_announced : list device_info;
  w_callbacks : list (nat * string * nat);
  w_trace : list event;
  w_log : list string
}.

(** A computation that may throw a C++ exception (with its [what()]);
    the state reached before a throw is kept. *)
Inductive result (A : Type) := Ok (a : A) | Exc (what : string).
Arguments Ok {A} a.
Arguments Exc {A} what.

Definition M (A : Type) : Type := world -> result A * world.

Global Instance M_ret : MRet M := fun A a w => (Ok a, w).
Global Instance M_bind : MBind M := fun A B f m w =>
  match m w with
  | (Ok a, w') => f a w'
  | (Exc e, w') => (Exc e, w')
  end.

Definition throw {A} (what : string) : M A := fun w => (Exc what, w).

(** [try { m } catch( std::exception & e ) { handler( e.what() ) }] *)
Definition try_catch (m : M unit) (handler : string -> M unit) : M unit := fun w =>
  match m w with
  | (Ok a, w') => (Ok a, w')
  | (Exc e, w') => handler e w'
  end.

(** Reading or writing through a reference that no longer exists. *)
Definition undefined_behaviour {A} : M A := throw "undefined behaviour".

Definition modify (f : world -> world) : M unit := fun w => (Ok tt, f w).

Definition set_handlers (hs : gmap nat device_handler) (w : world) : world :=
  {| w_handlers := hs; w_servers := w.(w_servers); w_next_id := w.(w_next_id);
     w_announced := w.(w_announced); w_callbacks := w.(w_callbacks);
     w_trace := w.(w_trace); w_log := w.(w_log) |}.
Definition set_servers (ss : gmap nat device_server) (w : world) : world :=
  {| w_handlers := w.(w_handlers); w_servers := ss; w_next_id := w.(w_next_id);
     w_announced := w.(w_announced); w_callbacks := w.(w_callbacks);
     w_trace := w.(w_trace); w_log := w.(w_log) |}.
Definition set_next_id (n : nat) (w : world) : world :=
  {| w_handlers := w.(w_handlers); w_servers := w.(w_servers); w_next_id := n;
     w_announced := w.(w_announced); w_callbacks := w.(w_callbacks);
     w_trace := w.(w_trace); w_log := w.(w_log) |}.
Definition set_announced (a : list device_info) (w : world) : world :=
  {| w_handlers := w.(w_handlers); w_servers := w.(w_servers); w_next_id := w.(w_next_id);
     w_announced := a; w_callbacks := w.(w_callbacks);
     w_trace := w.(w_trace); w_log := w.(w_log) |}.
Definition set_callbacks (cbs : list (nat * string * nat)) (w : world) : world :=
  {| w_handlers := w.(w_handlers); w_servers := w.(w_servers); w_next_id := w.(w_next_id);
     w_announced := w.(w_announced); w_callbacks := cbs;
     w_trace := w.(w_trace); w_log := w.(w_log) |}.
Definition emit (e : event) (w : world) : world :=
  {| w_handlers := w.(w_handlers); w_servers := w.(w_servers); w_next_id := w.(w_next_id);
     w_announced := w.(w_announced); w_callbacks := w.(w_callbacks);
     w_trace := w.(w_trace) ++ [e]; w_log := w.(w_log) |}.
Definition add_log (l : list string) (w : world) : world :=
  {| w_handlers := w.(w_handlers); w_servers := w.(w_servers); w_next_id := w.(w_next_id);
     w_announced := w.(w_announced); w_callbacks := w.(w_callbacks);
     w_trace := w.(w_trace); w_log := w.(w_log) ++ l |}.

(** [LOG_ERROR] *)
Definition log_error (msg : string) : M unit := modify (add_log [msg]).

(** [std::make_shared]: a fresh object id. *)
Definition alloc_id : M nat := fun w => (Ok w.(w_next_id), set_next_id (S w.(w_next_id)) w).

Definition update_server (sid : nat) (f : device_server -> device_server) : M unit := fun w =>
  match w.(w_servers) !! sid with
  | Some s => (Ok tt, set_servers (<[sid := f s]> w.(w_servers)) w)
  | None => (Exc "undefined behaviour", w)
  end.

Global Instance device_info_eq_dec : EqDecision device_info.
Proof. solve_decision. Defined.

(* ------------------------------------------------------------------ *)
(** ** Collaborators *)

(** Modelled from the spec: [dds_device_broadcaster::add_device]
    (realdds, not in src) publishes a retained announcement of the device. *)
Definition broadcaster_add_device (info : device_info) : M unit :=
  modify (fun w => emit (EvAddDevice info) (set_announced (w.(w_announced) ++ [info]) w)).

(** Modelled from the spec: [dds_device_broadcaster::remove_device]
    (realdds, not in src) retracts the announcement; an unknown identity is
    left alone. The argument is the value read through the caller's
    reference, [None] when that reference designates no map entry. *)
Definition broadcaster_remove_device (info : option device_info) : M unit :=
  modify (fun w =>
    emit (EvRemoveDevice info)
      (match info with
       | Some i => set_announced (filter (fun j => j <> i) w.(w_announced)) w
       | None => w
       end)).

(** [std::make_shared< dds_device_server >( participant, topic_root )] *)
Definition make_device_server (topic_root : string) : M nat :=
  sid ← alloc_id;
  modify (fun w => set_servers (<[sid := {| ds_topic_root := topic_root; ds_streams := [];
                                            ds_init_msgs := []; ds_image_headers := ∅ |}]>
                                 w.(w_servers)) w);;
  mret sid.

(** Modelled from the spec: [dds_device_server::init] (realdds, not in
    src) declares the publishable stream names. *)
Definition server_init (sid : nat) (names : list string) : M unit :=
  update_server sid (fun s =>
    {| ds_topic_root := s.(ds_topic_root); ds_streams := names;
       ds_init_msgs := s.(ds_init_msgs); ds_image_headers := s.(ds_image_headers) |}).

(** Modelled from the spec: [dds_device_server::add_init_msg] (realdds,
    not in src) appends to the ordered replay queue. *)
Definition add_init_msg (sid : nat) (msg : notification) : M unit :=
  update_server sid (fun s =>
    {| ds_topic_root := s.(ds_topic_root); ds_streams := s.(ds_streams);
       ds_init_msgs := s.(ds_init_msgs) ++ [msg]; ds_image_headers := s.(ds_image_headers) |}).

(** Modelled from the spec: [dds_device_server::set_image_header]
    (realdds, not in src) records the header of a declared stream, which
    is then started, and reports an undeclared one. *)
Definition set_image_header (sid : nat) (stream_name : string) (header : image_header) : M unit :=
  fun w =>
    match w.(w_servers) !! sid with
    | Some s =>
        if bool_decide (stream_name ∈ s.(ds_streams)) then
          (Ok tt,
           emit (EvSetImageHeader sid stream_name header)
             (set_servers (<[sid := {| ds_topic_root := s.(ds_topic_root); ds_streams := s.(ds_streams);
                                       ds_init_msgs := s.(ds_init_msgs);
                                       ds_image_headers := <[stream_name := header]> s.(ds_image_headers) |}]>
                             w.(w_servers)) w))
        else (Exc ("stream '" +:+ stream_name +:+ "' does not exist"), w)
    | None => (Exc "undefined behaviour", w)
    end.

(** Modelled from the spec: [dds_device_server::publish_image] (realdds,
    not in src) fails on a stream that is not started and when the
    transport write fails ([transport_ok] is the transport's outcome). *)
Definition publish_image (sid : nat) (stream_name : string) (size : nat) (transport_ok : bool) : M unit :=
  fun w =>
    match w.(w_servers) !! sid with
    | Some s =>
        match s.(ds_image_headers) !! stream_name with
        | Some _ =>
            if transport_ok then (Ok tt, emit (EvPublish sid stream_name size) w)
            else (Exc "DDS write failed", w)
        | None => (Exc ("stream '" +:+ stream_name +:+ "' is not started"), w)
        end
    | None => (Exc "undefined behaviour", w)
    end.

(** Modelled from the spec: [tools::lrs_device_controller::start_stream]
    (not in src) starts the hardware stream and registers its frame
    callback, which publishes to server [sid]. *)
Definition controller_start_stream (ctrl : nat) (sp : stream_profile) (sid : nat) : M unit :=
  modify (fun w => emit (EvStartStream ctrl sp)
                     (set_callbacks (w.(w_callbacks) ++ [(ctrl, sp.(sp_stream_name), sid)]) w)).

(** Modelled from the spec: [tools::lrs_device_controller::stop_all_streams]
    (not in src) stops every stream of the controller; their callbacks are
    no longer called. *)
Definition controller_stop_all_streams (ctrl : nat) : M unit :=
  modify (fun w => emit (EvStopAllStreams ctrl)
                     (set_callbacks (filter (fun cb => cb.1.1 <> ctrl) w.(w_callbacks)) w)).

(* ------------------------------------------------------------------ *)
(** ** Streaming *)

(** The message logged when publishing a frame throws. *)
Definition publish_error_log (f : frame) (what : string) : string :=
  "Exception raised during DDS publish " +:+ f.(f_stream_name) +:+ " frame: " +:+ what.

(** The frame callback of [start_streaming]. *)
Definition frame_callback (sid : nat) (transport_ok : bool) (f : frame) : M unit :=
  try_catch (publish_image sid f.(f_stream_name) f.(f_data_size) transport_ok)
    (fun what => log_error (publish_error_log f what)).

(** [start_streaming] *)
Definition start_streaming (lrs_device_controller dds_dev_server : nat)
    (stream_profile : stream_profile) : M unit :=
  let header := {| ih_format := stream_profile.(sp_format);
                   ih_height := stream_profile.(sp_height);
                   ih_width := stream_profile.(sp_width) |} in
  set_image_header dds_dev_server stream_profile.(sp_stream_name) header;;
  controller_start_stream lrs_device_controller stream_profile dds_dev_server.

Definition profile_matches (stream fps format width height : Z) (sp : stream_profile) : bool :=
  Z.eqb sp.(sp_stream_type) stream && Z.eqb sp.(sp_fps) fps && Z.eqb sp.(sp_format) format
  && Z.eqb sp.(sp_width) width && Z.eqb sp.(sp_height) height.

(** [get_required_profile] *)
Definition get_required_profile (s : sensor) (stream fps format width height : Z) : M stream_profile :=
  match List.find (profile_matches stream fps format width height) s.(s_profiles) with
  | Some sp => mret sp
  | None => throw "Could not find required profile"
  end.

Definition is_color_sensor (s : sensor) : bool :=
  match s.(s_kind) with ColorSensor => true | _ => false end.

(** [rs2::device::first< rs2::color_sensor >()] *)
Definition first_color_sensor (dev : device) : M sensor :=
  match List.find is_color_sensor dev.(dev_sensors) with
  | Some s => mret s
  | None => throw "Could not find requested sensor type!"
  end.

(* ------------------------------------------------------------------ *)
(** ** Initialization messages and the attach handler *)

(** [add_init_device_header_msg] *)
Definition add_init_device_header_msg (dev : device) (server : nat) : M unit :=
  let num_of_streams := sum_list_with (fun s => length s.(s_profiles)) dev.(dev_sensors) in
  add_init_msg server (DEVICE_HEADER num_of_streams).

(** [device_handlers_list.emplace( dev, handler )]: nothing is inserted
    when the key is present. *)
Definition handlers_emplace (k : nat) (h : device_handler) : M unit :=
  modify (fun w => match w.(w_handlers) !! k with
                   | Some _ => w
                   | None => set_handlers (<[k := h]> w.(w_handlers)) w
                   end).

Section Bridge.
(** The size of the [group_name] buffers of the profiles messages. *)
Variable GROUP_NAME_SIZE : nat.
(** The profiles messages as default-constructed (their [profiles]
    arrays have the fixed length of the message type). *)
Variable video_msg_default : video_stream_profiles_msg.
Variable motion_msg_default : motion_stream_profiles_msg.

(** The body of the sensor loop of [add_init_profiles_msgs]. *)
Definition add_sensor_profiles_msg (server : nat) (s : sensor) : M unit :=
  match s.(s_kind) with
  | ColorSensor | DepthSensor =>
      match prepare_video_profiles_messeges GROUP_NAME_SIZE s.(s_name) s.(s_profiles) video_msg_default with
      | Some (msg, log) =>
          modify (add_log log);;
          if (0 <? msg.(vm_num_of_profiles))%Z
          then add_init_msg server (VIDEO_STREAM_PROFILES msg) else mret tt
      | None => undefined_behaviour
      end
  | MotionSensor =>
      match prepare_motion_profiles_messeges GROUP_NAME_SIZE s.(s_name) s.(s_profiles) motion_msg_default with
      | Some (msg, log) =>
          modify (add_log log);;
          if (0 <? msg.(mm_num_of_profiles))%Z
          then add_init_msg server (MOTION_STREAM_PROFILES msg) else mret tt
      | None => undefined_behaviour
      end
  | OtherSensor => throw "Sensor type is not supported (only video & motion sensors are supported)"
  end.

Fixpoint add_init_profiles_loop (server : nat) (sensors : list sensor) : M unit :=
  match sensors with
  | [] => mret tt
  | s :: sensors' => add_sensor_profiles_msg server s;; add_init_profiles_loop server sensors'
  end.

(** [add_init_profiles_msgs] ([sensor_idx] is counted but never read). *)
Definition add_init_profiles_msgs (dev : device) (server : nat) : M unit :=
  add_init_profiles_loop server dev.(dev_sensors).

(** [init_dds_device] *)
Definition init_dds_device (dev : device) (server : nat) : M unit :=
  add_init_device_header_msg dev server;;
  add_init_profiles_msgs dev server.

(** The device-connection lambda of [main]. *)
Definition on_device_connected (dev : device) : M unit :=
  let dev_info := rs2_device_to_info dev in
  broadcaster_add_device dev_info;;
  let supported_streams_names_vec := get_supported_streams dev in
  server ← make_device_server dev_info.(topic_root);
  server_init server supported_streams_names_vec;;
  lrs_device_controller ← alloc_id;
  handlers_emplace dev.(dev_handle)
    {| dh_info := dev_info; dh_server := server; dh_controller := lrs_device_controller |};;
  init_dds_device dev server;;
  color ← first_color_sensor dev;
  profile ← get_required_profile color RS2_STREAM_COLOR 30 RS2_FORMAT_RGB8 1280 720;
  start_streaming lrs_device_controller server profile.

(** Modelled from the spec: the dispatch of a connection by
    [tools::lrs_device_watcher] (lrs-device-watcher.cpp, not in src).
    Per the spec's error taxonomy, an exception from bridging one device
    is logged, that device's bridging stops there, and the watcher keeps
    serving. *)
Definition watcher_on_device_connected (dev : device) (w : world) : world :=
  match on_device_connected dev w with
  | (Ok _, w') => w'
  | (Exc what, w') => add_log [what] w'
  end.
End Bridge.

(* ------------------------------------------------------------------ *)
(** ** The detach handler *)

(** [device_handlers_list.at( dev )]: a reference to the entry, named by
    its key; [std::out_of_range] when there is none. *)
Definition handlers_at (k : nat) : M nat := fun w =>
  match w.(w_handlers) !! k with
  | Some _ => (Ok k, w)
  | None => (Exc "map::at", w)
  end.

(** Reading through a reference to a map entry: the entry its key
    designates now, [None] once the entry is erased.  After an erase the
    C++ reference dangles and the read is a use-after-free; [None] records
    that the registered entry is no longer there to be read. *)
Definition deref_handler (ref : nat) : M (option device_handler) := fun w =>
  (Ok (w.(w_handlers) !! ref), w).

(** [device_handlers_list.erase( dev )] *)
Definition handlers_erase (k : nat) : M unit :=
  modify (fun w => emit (EvEraseHandler k) (set_handlers (delete k w.(w_handlers)) w)).

(** The device-disconnection lambda of [main].  The second
    [deref_handler] is the read of [handler.info] at line 415, after the
    entry was erased at line 413. *)
Definition on_device_disconnected (dev : device) : M unit :=
  handler ← handlers_at dev.(dev_handle);
  h ← deref_handler handler;
  match h with
  | Some h => controller_stop_all_streams h.(dh_controller)
  | None => undefined_behaviour
  end;;
  handlers_erase dev.(dev_handle);;
  h' ← deref_handler handler;
  broadcaster_remove_device (dh_info <$> h').

(* ------------------------------------------------------------------ *)
(** ** Start-up of [main] *)

Definition EXIT_FAILURE : Z := 1.

(** Modelled from the spec: [dds_domain_id] (realdds' dds-defines.h, not
    in src) is taken as an unsigned integer; the spec's domain selector
    ranges over 0-232. *)
Definition dds_domain_id := N.

(** Where [main] goes: an exit code, or the run loop (pending on stdin). *)
Inductive main_outcome := MainExit (code : Z) | MainRunLoop.

(** The start-up checks of [main], up to [broadcaster.run()]: the
    domain argument (when set), whether
    [participant->init] succeeds (it throws otherwise, caught by [main]'s
    handler) and what [broadcaster.run()] returns.  The other ways out of
    [main] before its run loop (argument parsing, the construction of
    [rs2::context], [dev_watcher.run]) are not modelled: [MainRunLoop]
    means these checks pass, not that [main] reaches the loop. *)
Definition main_startup (domain_arg : option dds_domain_id)
    (participant_init_ok broadcaster_run_ok : bool) : main_outcome :=
  let domain_check :=
    match domain_arg with
    | Some domain => if (232 <? domain)%N then Some (MainExit EXIT_FAILURE) else None
    | None => None
    end in
  match domain_check with
  | Some out => out
  | None =>
      if negb participant_init_ok then MainExit EXIT_FAILURE
      else if negb broadcaster_run_ok then MainExit EXIT_FAILURE
      else MainRunLoop
  end.


(* ------------------------------------------------------------------ *)
(** ** Reasoning about [M] *)

(** [Q] holds of the value and the state after a normal return of [m]
    from a state satisfying [P]; [E] of [what()] and the state after a
    throw. *)
Definition triple {A} (P : world -> Prop) (m : M A)
    (Q : A -> world -> Prop) (E : string -> world -> Prop) : Prop :=
  forall w, P w ->
    match m w with
    | (Ok a, w') => Q a w'
    | (Exc e, w') => E e w'
    end.

(** A property of the store of servers kept by both outcomes of [m]. *)
Definition keeps_servers {A} (S : gmap nat device_server -> Prop) (m : M A) : Prop :=
  triple (fun w => S w.(w_servers)) m (fun _ w => S w.(w_servers)) (fun _ w => S w.(w_servers)).

Definition not_header (msg : notification) : bool :=
  match msg with DEVICE_HEADER _ => false | _ => true end.

(** The replay queue of server [sid] starts with the device header
    [DEVICE_HEADER n] and has no other device header. *)
Definition header_first (sid n : nat) (ss : gmap nat device_server) : Prop :=
  exists s rest, ss !! sid = Some s /\ s.(ds_init_msgs) = DEVICE_HEADER n :: rest /\
    Forall (fun msg => not_header msg = true) rest.

(** The sum of the profile counts of all sensors of a device. *)
Definition total_profiles (dev : device) : nat :=
  sum_list_with (fun s => length s.(s_profiles)) dev.(dev_sensors).



(** Stream [name] of server [sid] is started: it has an image header. *)
Definition stream_started (ss : gmap nat device_server) (sid : nat) (name : string) : bool :=
  match ss !! sid with
  | Some s => match s.(ds_image_headers) !! name with Some _ => true | None => false end
  | None => false
  end.

(** Every registered frame callback publishes to a started stream. *)
Definition callbacks_started (w : world) : bool :=
  forallb (fun cb => stream_started w.(w_servers) cb.2 cb.1.2) w.(w_callbacks).

(** The header [start_streaming] sets for a profile. *)
Definition profile_header (sp : stream_profile) : image_header :=
  {| ih_format := sp.(sp_format); ih_height := sp.(sp_height); ih_width := sp.(sp_width) |}.

(* ------------------------------------------------------------------ *)
(** ** Concrete inputs: the spec's end-to-end scenario *)

(** A 1280x720 RGB8 color profile at 30 fps, the default one. *)
Definition example_color_profile : stream_profile :=
  {| sp_stream_name := "Color"; sp_stream_index := 0; sp_unique_id := 7; sp_fps := 30;
     sp_format := RS2_FORMAT_RGB8; sp_stream_type := RS2_STREAM_COLOR;
     sp_width := 1280; sp_height := 720; sp_is_default := true; sp_kind := VideoProfile |}.

(** A device with one color sensor exposing that profile. *)
Definition example_device : device :=
  {| dev_handle := 1; dev_name := "Intel RealSense D435"; dev_serial := "11223344";
     dev_product_line := "D400"; dev_camera_locked := "NO";
     dev_sensors := [{| s_name := "RGB Camera"; s_kind := ColorSensor;
                        s_profiles := [example_color_profile] |}] |}.

Definition empty_video_entry : video_stream_profile :=
  {| v_stream_index := 0; v_uid := 0; v_framerate := 0; v_format := 0; v_type := 0;
     v_width := 0; v_height := 0; v_default_profile := false |}.
Definition empty_motion_entry : motion_stream_profile :=
  {| m_stream_index := 0; m_uid := 0; m_framerate := 0; m_format := 0; m_type := 0;
     m_default_profile := false |}.

(** Default-constructed profiles messages with arrays of 8 entries. *)
Definition example_video_msg : video_stream_profiles_msg :=
  {| vm_group_name := ""; vm_profiles := replicate 8 empty_video_entry; vm_num_of_profiles := 0 |}.
Definition example_motion_msg : motion_stream_profiles_msg :=
  {| mm_group_name := ""; mm_profiles := replicate 8 empty_motion_entry; mm_num_of_profiles := 0 |}.

Definition empty_world : world :=
  {| w_handlers := ∅; w_servers := ∅; w_next_id := 0; w_announced := [];
     w_callbacks := []; w_trace := []; w_log := [] |}.

(** The state after the example device is attached. *)
Definition example_attached_world : world :=
  snd (on_device_connected 32 example_video_msg example_motion_msg example_device empty_world).


(** A video profile whose unique id (40000) does not fit in 16 bits. *)
Definition example_large_uid_profile : stream_profile :=
  {| sp_stream_name := "Color"; sp_stream_index := 0; sp_unique_id := 40000; sp_fps := 30;
     sp_format := RS2_FORMAT_RGB8; sp_stream_type := RS2_STREAM_COLOR;
     sp_width := 1280; sp_height := 720; sp_is_default := true; sp_kind := VideoProfile |}.

Definition fits_int8 (z : Z) : Prop := (-128 <= z < 128)%Z.
Definition fits_int16 (z : Z) : Prop := (-32768 <= z < 32768)%Z.


(** [m] keeps [P] on both of its outcomes. *)
Definition keeps {A} (P : world -> Prop) (m : M A) : Prop :=
  triple P m (fun _ => P) (fun _ => P).

(** What attaching device [d] (info [info], fresh server [sid]) may change
    of the state [w0]: its own handler entry, its own server, and the
    announcement of its info; nothing else of other devices. *)
Definition attach_frame (w0 : world) (d sid : nat) (info : device_info) (w : world) : Prop :=
  (forall k, k <> d -> w.(w_handlers) !! k = w0.(w_handlers) !! k) /\
  (forall sid', sid' <> sid -> w.(w_servers) !! sid' = w0.(w_servers) !! sid') /\
  w.(w_callbacks) = w0.(w_callbacks) /\
  w.(w_announced) = (w0.(w_announced) ++ [info])%list.


(** The example device with a second sensor of an unsupported kind. *)
Definition example_unsupported_device : device :=
  {| dev_handle := 2; dev_name := "Intel RealSense D455"; dev_serial := "55667788";
     dev_product_line := "D400"; dev_camera_locked := "NO";
     dev_sensors := [{| s_name := "RGB Camera"; s_kind := ColorSensor;
                        s_profiles := [example_color_profile] |};
                     {| s_name := "Debug Sensor"; s_kind := OtherSensor; s_profiles := [] |}] |}.

(* ------------------------------------------------------------------ *)
(** ** Further reasoning definitions *)

(** [stream_profile.is< video_stream_profile >()] and
    [stream_profile.is< motion_stream_profile >()]. *)
Definition is_video (sp : stream_profile) : bool :=
  match sp.(sp_kind) with VideoProfile => true | _ => false end.
Definition is_motion (sp : stream_profile) : bool :=
  match sp.(sp_kind) with MotionProfile => true | _ => false end.

(** A profiles message announcing at least one profile. *)
Definition nonempty_profiles_msg (msg : notification) : bool :=
  match msg with
  | DEVICE_HEADER _ => false
  | VIDEO_STREAM_PROFILES m => (0 <? m.(vm_num_of_profiles))%Z
  | MOTION_STREAM_PROFILES m => (0 <? m.(mm_num_of_profiles))%Z
  end.

(** The criteria of [get_required_profile], field by field. *)
Definition required_fields (stream fps format width height : Z) (sp : stream_profile) : Prop :=
  sp.(sp_stream_type) = stream /\ sp.(sp_fps) = fps /\ sp.(sp_format) = format /\
  sp.(sp_width) = width /\ sp.(sp_height) = height.

(** The fields of a server other than its replay queue. *)
Definition server_shape (s : device_server) : string * list string * gmap string image_header :=
  (s.(ds_topic_root), s.(ds_streams), s.(ds_image_headers)).

(** [w] differs from [w0] at most in the servers' replay queues and in
    the log. *)
Definition msgs_only (w0 w : world) : Prop :=
  w.(w_handlers) = w0.(w_handlers) /\ w.(w_next_id) = w0.(w_next_id) /\
  w.(w_callbacks) = w0.(w_callbacks) /\ w.(w_announced) = w0.(w_announced) /\
  w.(w_trace) = w0.(w_trace) /\
  forall sid, (server_shape <$> w.(w_servers) !! sid) = (server_shape <$> w0.(w_servers) !! sid).

(** The handlers map after [handlers_emplace k h]. *)
Definition emplaced (hs : gmap nat device_handler) (k : nat) (h : device_handler) :
    gmap nat device_handler :=
  match hs !! k with Some _ => hs | None => <[k := h]> hs end.

(** The [what()] of the exceptions the attach handler throws in this
    model (the collaborators' own failures, such as [get_info] throwing,
    are not modelled). *)
Definition attach_errors : list string :=
  ["Sensor type is not supported (only video & motion sensors are supported)";
   "undefined behaviour"; "Could not find requested sensor type!";
   "Could not find required profile"].

(** A server for the example device, freshly initialized. *)
Definition example_server : device_server :=
  {| ds_topic_root := "realsense/D435/11223344"; ds_streams := ["Color"];
     ds_init_msgs := []; ds_image_headers := ∅ |}.

Definition example_server_world : world :=
  set_next_id 1 (set_servers {[0 := example_server]} empty_world).

(** A depth sensor with a video profile and a stray motion profile. *)
Definition example_gyro_profile : stream_profile :=
  {| sp_stream_name := "Gyro"; sp_stream_index := 0; sp_unique_id := 9; sp_fps := 200;
     sp_format := 0; sp_stream_type := 5; sp_width := 0; sp_height := 0;
     sp_is_default := true; sp_kind := MotionProfile |}.

Definition example_mixed_profiles : list stream_profile :=
  [example_color_profile; example_gyro_profile].

(** The handler registered by attaching the example device to the empty
    state: server 0, controller 1. *)
Definition example_handler : device_handler :=
  {| dh_info := rs2_device_to_info example_device; dh_server := 0; dh_controller := 1 |}.

(* ================================================================== *)
(** * Proofs *)

(** ** Topic root *)

Fixpoint no_nul (s : string) : Prop :=
  match s with EmptyString => True | String c s' => c <> NUL /\ no_nul s' end.

Lemma nat_of_ascii_diff (a b : Ascii.ascii) :
  Ascii.eqb a b = false ->
  (Z.of_nat (Ascii.nat_of_ascii a) - Z.of_nat (Ascii.nat_of_ascii b) <> 0)%Z.
Proof.
  intros Hne Heq.
  assert (Ascii.nat_of_ascii a = Ascii.nat_of_ascii b) as Hn by lia.
  apply (f_equal Ascii.ascii_of_nat) in Hn.
  rewrite !Ascii.ascii_nat_embedding in Hn. subst.
  rewrite Ascii.eqb_refl in Hne. discriminate.
Qed.

(** [strncmp] over the whole of a NUL-free pattern returns 0 exactly on
    a byte-wise prefix match at offset 0. *)
Lemma strncmp_prefix (p s : string) :
  no_nul p -> strncmp s p (String.length p) = 0%Z ->
  exists rest, s = String.append p rest.
Proof.
  revert s. induction p as [|c p IH]; intros s Hp Hcmp.
  - exists s. reflexivity.
  - destruct Hp as [Hc Hp]. simpl in Hcmp.
    destruct (Ascii.eqb (c_head s) c) eqn:E.
    + apply Ascii.eqb_eq in E.
      destruct (Ascii.eqb (c_head s) NUL) eqn:En.
      * apply Ascii.eqb_eq in En. congruence.
      * destruct (IH (c_tail s) Hp Hcmp) as [rest Hr].
        exists rest. destruct s as [|c' s']; simpl in *.
        -- subst c. unfold NUL in Hc. contradiction.
        -- subst. reflexivity.
    + exfalso. exact (nat_of_ascii_diff _ _ E Hcmp).
Qed.

Lemma substring_all (s : string) : String.substring 0 (String.length s) s = s.
Proof. induction s as [|c s IH]; simpl; [reflexivity | now rewrite IH]. Qed.

Lemma string_length_append (s1 s2 : string) :
  String.length (String.append s1 s2) = (String.length s1 + String.length s2)%nat.
Proof. induction s1 as [|c s1 IH]; simpl; [reflexivity | now rewrite IH]. Qed.

Lemma string_erase_front_app (p rest : string) :
  string_erase_front (String.append p rest) (String.length p) = rest.
Proof.
  unfold string_erase_front. rewrite string_length_append.
  replace (String.length p + String.length rest - String.length p)%nat
    with (String.length rest) by lia.
  induction p as [|c p IH]; simpl; [apply substring_all | exact IH].
Qed.

Lemma no_nul_prefix : no_nul DEVICE_NAME_PREFIX.
Proof. unfold DEVICE_NAME_PREFIX, NUL. simpl. repeat split; discriminate. Qed.

Lemma get_topic_root_cases (di : device_info) :
  get_topic_root di = String.append RS_ROOT (String.append di.(name) (String.append "/" di.(serial))) \/
  exists rest, di.(name) = String.append DEVICE_NAME_PREFIX rest /\
    get_topic_root di = String.append RS_ROOT (String.append rest (String.append "/" di.(serial))).
Proof.
  unfold get_topic_root.
  destruct ((DEVICE_NAME_PREFIX_CCH <? String.length (name di))%nat
            && Z.eqb 0 (strncmp (name di) DEVICE_NAME_PREFIX DEVICE_NAME_PREFIX_CCH)) eqn:E.
  - right. apply andb_true_iff in E as [_ E].
    apply Z.eqb_eq in E. symmetry in E.
    destruct (strncmp_prefix DEVICE_NAME_PREFIX (name di) no_nul_prefix E) as [rest Hr].
    exists rest. split; [exact Hr|].
    rewrite Hr. unfold DEVICE_NAME_PREFIX_CCH.
    change 16%nat with (String.length DEVICE_NAME_PREFIX).
    rewrite string_erase_front_app. reflexivity.
  - left. reflexivity.
Qed.

(** C2: topic-root derivation strips the vendor prefix "Intel RealSense "
    only when the model name begins with it byte for byte (case-sensitive,
    at offset 0), and otherwise keeps the model name unchanged; on the two
    reference inputs it gives "realsense/D435/11223344" and
    "realsense/Generic Cam/99". *)
Theorem get_topic_root_strips_prefix_only_on_match :
  get_topic_root (info_of "Intel RealSense D435" "11223344") = "realsense/D435/11223344" /\
  get_topic_root (info_of "Generic Cam" "99") = "realsense/Generic Cam/99" /\
  forall di : device_info,
    get_topic_root di = String.append RS_ROOT (String.append di.(name) (String.append "/" di.(serial))) \/
    exists rest, di.(name) = String.append DEVICE_NAME_PREFIX rest /\
      get_topic_root di = String.append RS_ROOT (String.append rest (String.append "/" di.(serial))).
Proof.
  split; [reflexivity|]. split; [reflexivity|]. exact get_topic_root_cases.
Qed.

(** C10: a model name of at most 16 bytes, even one equal to the prefix
    "Intel RealSense " itself, is used unmodified in the topic root. *)
Theorem get_topic_root_short_name_unchanged (di : device_info) :
  (String.length di.(name) <= 16)%nat ->
  get_topic_root di = String.append RS_ROOT (String.append di.(name) (String.append "/" di.(serial))).
Proof.
  intros Hlen. unfold get_topic_root, DEVICE_NAME_PREFIX_CCH.
  replace ((16 <? String.length (name di))%nat) with false
    by (symmetry; apply Nat.ltb_ge; exact Hlen).
  reflexivity.
Qed.

Lemma get_topic_root_short_name_unchanged_witness :
  (String.length (info_of DEVICE_NAME_PREFIX "99").(name) <= 16)%nat /\
  get_topic_root (info_of DEVICE_NAME_PREFIX "99") = "realsense/Intel RealSense /99".
Proof.
  split; [vm_compute; lia|].
  rewrite (get_topic_root_short_name_unchanged (info_of DEVICE_NAME_PREFIX "99")).
  - reflexivity.
  - vm_compute. lia.
Defined.

(** ** The monad *)

Lemma triple_bind {A B} (R : A -> world -> Prop) (P : world -> Prop) (m : M A) (f : A -> M B)
    (Q : B -> world -> Prop) (E : string -> world -> Prop) :
  triple P m R E -> (forall a, triple (R a) (f a) Q E) -> triple P (m ≫= f) Q E.
Proof.
  intros Hm Hf w Hw. unfold mbind, M_bind. specialize (Hm w Hw).
  destruct (m w) as [[a|e] w']; [apply Hf|]; exact Hm.
Qed.

Lemma triple_conseq {A} (P P' : world -> Prop) (m : M A) (Q Q' : A -> world -> Prop)
    (E E' : string -> world -> Prop) :
  triple P m Q E -> (forall w, P' w -> P w) -> (forall a w, Q a w -> Q' a w) ->
  (forall e w, E e w -> E' e w) -> triple P' m Q' E'.
Proof.
  intros H HP HQ HE w Hw. specialize (H w (HP w Hw)).
  destruct (m w) as [[a|e] w']; auto.
Qed.

Lemma triple_ret {A} (a : A) P Q E : (forall w, P w -> Q a w) -> triple P (mret a) Q E.
Proof. intros H w Hw. exact (H w Hw). Qed.

Lemma triple_modify g P Q E : (forall w, P w -> Q tt (g w)) -> triple P (modify g) Q E.
Proof. intros H w Hw. exact (H w Hw). Qed.

Lemma triple_throw {A} msg P (Q : A -> world -> Prop) E :
  (forall w, P w -> E msg w) -> triple P (throw msg) Q E.
Proof. intros H w Hw. exact (H w Hw). Qed.

Lemma keeps_servers_bind {A B} S (m : M A) (f : A -> M B) :
  keeps_servers S m -> (forall a, keeps_servers S (f a)) -> keeps_servers S (m ≫= f).
Proof. intros Hm Hf. apply (triple_bind (fun _ w => S w.(w_servers))); assumption. Qed.

Lemma keeps_servers_ret {A} S (a : A) : keeps_servers S (mret a).
Proof. apply triple_ret. auto. Qed.

Lemma keeps_servers_throw {A} S msg : keeps_servers S (@throw A msg).
Proof. apply triple_throw. auto. Qed.

Lemma keeps_servers_modify S g :
  (forall w, (g w).(w_servers) = w.(w_servers)) -> keeps_servers S (modify g).
Proof. intros H. apply triple_modify. intros w Hw. rewrite H. exact Hw. Qed.

(** ** C1: the device header comes first *)

Lemma update_server_spec sid f (R R' : device_server -> Prop) :
  (forall s, R s -> R' (f s)) ->
  triple (fun w => exists s, w.(w_servers) !! sid = Some s /\ R s) (update_server sid f)
    (fun _ w => exists s, w.(w_servers) !! sid = Some s /\ R' s) (fun _ _ => False).
Proof.
  intros Hf w [s [Hs HR]]. unfold update_server. rewrite Hs. simpl.
  exists (f s). split; [apply lookup_insert_eq | exact (Hf s HR)].
Qed.

Lemma add_init_msg_header_first sid' msg sid n :
  not_header msg = true -> keeps_servers (header_first sid n) (add_init_msg sid' msg).
Proof.
  intros Hm w (s & rest & Hs & Hmsgs & Hrest). unfold add_init_msg, update_server.
  destruct (w_servers w !! sid') as [s'|] eqn:E; simpl.
  - destruct (decide (sid' = sid)) as [->|Hne].
    + rewrite Hs in E. injection E as <-.
      eexists _, (rest ++ [msg])%list. rewrite lookup_insert_eq. split; [reflexivity|].
      simpl. rewrite Hmsgs. split; [reflexivity|].
      apply Forall_app. split; [exact Hrest | constructor; [exact Hm | constructor]].
    + exists s, rest. rewrite lookup_insert_ne by congruence. auto.
  - exists s, rest. auto.
Qed.

Lemma add_sensor_profiles_msg_header_first GN vdef mdef server s sid n :
  keeps_servers (header_first sid n) (add_sensor_profiles_msg GN vdef mdef server s).
Proof.
  unfold add_sensor_profiles_msg.
  destruct (s_kind s).
  1,2: destruct (prepare_video_profiles_messeges GN (s_name s) (s_profiles s) vdef) as [[msg log]|].
  5: destruct (prepare_motion_profiles_messeges GN (s_name s) (s_profiles s) mdef) as [[msg log]|].
  1,3,5: apply keeps_servers_bind; [apply keeps_servers_modify; reflexivity|intros []];
         case_match; [apply add_init_msg_header_first; reflexivity | apply keeps_servers_ret].
  all: apply keeps_servers_throw.
Qed.

Lemma add_init_profiles_loop_header_first GN vdef mdef server sensors sid n :
  keeps_servers (header_first sid n) (add_init_profiles_loop GN vdef mdef server sensors).
Proof.
  induction sensors as [|s sensors IH]; simpl.
  - apply keeps_servers_ret.
  - apply keeps_servers_bind; [apply add_sensor_profiles_msg_header_first | intros; exact IH].
Qed.

Lemma set_image_header_keeps_msgs sid' name hdr (S : gmap nat device_server -> Prop) :
  (forall ss k s, ss !! k = Some s -> S ss ->
     S (<[k := {| ds_topic_root := s.(ds_topic_root); ds_streams := s.(ds_streams);
                  ds_init_msgs := s.(ds_init_msgs);
                  ds_image_headers := <[name := hdr]> s.(ds_image_headers) |}]> ss)) ->
  keeps_servers S (set_image_header sid' name hdr).
Proof.
  intros HS w Hw. unfold set_image_header.
  destruct (w_servers w !! sid') as [s|] eqn:E; [|exact Hw].
  case_bool_decide; [|exact Hw]. simpl. exact (HS _ _ _ E Hw).
Qed.

Lemma start_streaming_header_first ctrl server sp sid n :
  keeps_servers (header_first sid n) (start_streaming ctrl server sp).
Proof.
  unfold start_streaming. apply keeps_servers_bind.
  - apply set_image_header_keeps_msgs.
    intros ss k s Hk (s0 & rest & Hs0 & Hm & Hr).
    destruct (decide (k = sid)) as [->|Hne].
    + rewrite Hs0 in Hk. injection Hk as <-.
      exists (Build_device_server (ds_topic_root s0) (ds_streams s0) (ds_init_msgs s0)
                (<[sp_stream_name sp := {| ih_format := sp_format sp; ih_width := sp_width sp;
                                          ih_height := sp_height sp |}]> (ds_image_headers s0))), rest.
      rewrite lookup_insert_eq. auto.
    + exists s0, rest. rewrite lookup_insert_ne by congruence. auto.
  - intros _. apply keeps_servers_modify. reflexivity.
Qed.

Lemma first_color_sensor_keeps dev P :
  triple P (first_color_sensor dev) (fun _ => P) (fun _ => P).
Proof. intros w Hw. unfold first_color_sensor. destruct (List.find _ _); exact Hw. Qed.

Lemma get_required_profile_keeps s stream fps format width height P :
  triple P (get_required_profile s stream fps format width height) (fun _ => P) (fun _ => P).
Proof. intros w Hw. unfold get_required_profile. destruct (List.find _ _); exact Hw. Qed.

Lemma make_device_server_spec root n0 :
  triple (fun w => w.(w_next_id) = n0) (make_device_server root)
    (fun sid w => sid = n0 /\ exists s, w.(w_servers) !! n0 = Some s /\ s.(ds_init_msgs) = [])
    (fun _ _ => False).
Proof.
  intros w Hw. unfold make_device_server, mbind, M_bind, alloc_id. simpl.
  split; [exact Hw|]. subst n0. eexists. split; [apply lookup_insert_eq | reflexivity].
Qed.

Lemma alloc_id_keeps_servers (S : gmap nat device_server -> Prop) :
  triple (fun w => S w.(w_servers)) alloc_id (fun _ w => S w.(w_servers)) (fun _ _ => False).
Proof. intros w Hw. exact Hw. Qed.

(** C1: whatever the attached device, the replay queue of the device server
    created for it starts with a single DEVICE_HEADER, queued before every
    profile message, whose [num_of_streams] is the sum of the profile counts
    of all its sensors; this holds also when bridging throws later on. *)
Theorem on_device_connected_header_first (GROUP_NAME_SIZE : nat)
    (vdef : video_stream_profiles_msg) (mdef : motion_stream_profiles_msg)
    (dev : device) (w : world) :
  exists s rest,
    (snd (on_device_connected GROUP_NAME_SIZE vdef mdef dev w)).(w_servers) !! w.(w_next_id) = Some s /\
    s.(ds_init_msgs) = DEVICE_HEADER (total_profiles dev) :: rest /\
    Forall (fun msg => not_header msg = true) rest.
Proof.
  set (n0 := w_next_id w).
  set (HF := fun (w' : world) => header_first n0 (total_profiles dev) w'.(w_servers)).
  set (Empty := fun (w' : world) => exists s, w'.(w_servers) !! n0 = Some s /\ s.(ds_init_msgs) = []).
  assert (H : triple (fun w' => w' = w) (on_device_connected GROUP_NAME_SIZE vdef mdef dev)
                (fun _ => HF) (fun _ => HF)).
  { unfold on_device_connected.
    apply (triple_bind (fun _ w1 => w_next_id w1 = n0)).
    { apply triple_modify. intros w' ->. reflexivity. }
    intros _.
    apply (triple_bind (fun sid w2 => sid = n0 /\ Empty w2)).
    { eapply triple_conseq; [apply (make_device_server_spec _ n0)|intros w2 Hw2; exact Hw2|exact (fun a w2 H => H)|intros ? ? []]. }
    intros sid.
    apply (triple_bind (fun _ w3 => sid = n0 /\ Empty w3)).
    { intros w' [-> Hw']. pose proof (update_server_spec n0
        (fun s => {| ds_topic_root := s.(ds_topic_root); ds_streams := get_supported_streams dev;
                     ds_init_msgs := s.(ds_init_msgs); ds_image_headers := s.(ds_image_headers) |})
        (fun s => ds_init_msgs s = []) (fun s => ds_init_msgs s = [])
        ltac:(intros s Hs; exact Hs) w' Hw') as Hu.
      unfold server_init. destruct (update_server _ _ w') as [[]] ; [split; auto | contradiction]. }
    intros _.
    apply (triple_bind (fun _ w4 => sid = n0 /\ Empty w4)).
    { intros w' [-> Hw']. split; [reflexivity | exact Hw']. }
    intros ctrl.
    apply (triple_bind (fun _ w5 => sid = n0 /\ Empty w5)).
    { apply triple_modify. intros w' [-> Hw']. split; [reflexivity|].
      unfold Empty in *. destruct (w_handlers w' !! dev_handle dev); exact Hw'. }
    intros _.
    apply (triple_bind (fun _ => HF)).
    { unfold init_dds_device.
      apply (triple_bind (fun _ => HF)).
      - intros w' [-> Hw']. pose proof (update_server_spec n0
          (fun s => {| ds_topic_root := s.(ds_topic_root); ds_streams := s.(ds_streams);
                       ds_init_msgs := s.(ds_init_msgs) ++ [DEVICE_HEADER (total_profiles dev)];
                       ds_image_headers := s.(ds_image_headers) |})
          (fun s => ds_init_msgs s = [])
          (fun s => ds_init_msgs s = [DEVICE_HEADER (total_profiles dev)])
          ltac:(intros s Hs; simpl; rewrite Hs; reflexivity) w' Hw') as Hu.
        unfold add_init_device_header_msg, add_init_msg.
        destruct (update_server _ _ w') as [[] w''] ; [|contradiction].
        destruct Hu as [s [Hs Hm]]. exists s, []. auto.
      - intros _. apply add_init_profiles_loop_header_first. }
    intros _.
    apply (triple_bind (fun _ => HF)); [apply first_color_sensor_keeps|intros color].
    apply (triple_bind (fun _ => HF)); [apply get_required_profile_keeps|intros profile].
    apply start_streaming_header_first. }
  specialize (H w eq_refl).
  destruct (on_device_connected GROUP_NAME_SIZE vdef mdef dev w) as [[] w']; exact H.
Qed.

(** ** C3 and C9: the detach handler *)

(** The run of the detach handler on a registered device. *)
Lemma on_device_disconnected_run (dev : device) (w : world) (h : device_handler) :
  w.(w_handlers) !! dev.(dev_handle) = Some h ->
  on_device_disconnected dev w =
    (Ok tt,
     emit (EvRemoveDevice None)
       (emit (EvEraseHandler dev.(dev_handle))
          (set_handlers (delete dev.(dev_handle) w.(w_handlers))
             (emit (EvStopAllStreams h.(dh_controller))
                (set_callbacks (filter (fun cb => cb.1.1 <> h.(dh_controller)) w.(w_callbacks)) w))))).
Proof.
  intros Hh. unfold on_device_disconnected, mbind, M_bind, handlers_at, deref_handler.
  rewrite Hh. simpl. rewrite Hh. simpl. rewrite lookup_delete_eq. reflexivity.
Qed.

(** C3 (fails in the code): detaching a registered device stops all of
    its streams through its controller and then erases its entry from the
    handlers map, but the argument of the broadcaster's retraction,
    [handler.info], is read through the reference [at()] returned after
    that entry was erased (line 415, a use-after-free).  The read finds no
    entry, so the registered device info is never handed to the
    retraction: the device stays announced exactly as before. *)
Theorem on_device_disconnected_retracts_erased_entry (dev : device) (w : world) (h : device_handler) :
  w.(w_handlers) !! dev.(dev_handle) = Some h ->
  (snd (on_device_disconnected dev w)).(w_trace) =
    (w.(w_trace) ++ [EvStopAllStreams h.(dh_controller); EvEraseHandler dev.(dev_handle);
                     EvRemoveDevice None])%list /\
  (snd (on_device_disconnected dev w)).(w_handlers) !! dev.(dev_handle) = None /\
  (snd (on_device_disconnected dev w)).(w_announced) = w.(w_announced).
Proof.
  intros Hh. rewrite (on_device_disconnected_run dev w h Hh). simpl.
  split; [rewrite <- !app_assoc; reflexivity|].
  split; [apply lookup_delete_eq | reflexivity].
Qed.

Lemma on_device_disconnected_retracts_erased_entry_witness :
  exists h, example_attached_world.(w_handlers) !! example_device.(dev_handle) = Some h /\
  (snd (on_device_disconnected example_device example_attached_world)).(w_trace) =
    (example_attached_world.(w_trace) ++
      [EvStopAllStreams h.(dh_controller); EvEraseHandler example_device.(dev_handle);
       EvRemoveDevice None])%list /\
  (snd (on_device_disconnected example_device example_attached_world)).(w_handlers)
    !! example_device.(dev_handle) = None /\
  (snd (on_device_disconnected example_device example_attached_world)).(w_announced) =
    example_attached_world.(w_announced).
Proof.
  eexists. split.
  - vm_compute. reflexivity.
  - apply on_device_disconnected_retracts_erased_entry. vm_compute. reflexivity.
Defined.

(** C9: after attaching the example device and detaching it, the value
    handed to the broadcaster's retraction is read through the reference
    to the handler entry after that entry was erased: the read finds no
    entry ([None]), not the registered device info, and the device stays
    announced. *)
Theorem on_device_disconnected_reads_erased_entry :
  example_attached_world.(w_handlers) !! example_device.(dev_handle) <> None /\
  last (snd (on_device_disconnected example_device example_attached_world)).(w_trace) =
    Some (EvRemoveDevice None) /\
  (snd (on_device_disconnected example_device example_attached_world)).(w_announced) =
    [rs2_device_to_info example_device].
Proof. vm_compute. split; [discriminate|]. split; reflexivity. Qed.

(** ** C5: the image header is set before the hardware stream starts *)

Lemma stream_started_insert_header (ss : gmap nat device_server) sid s name hdr sid' name' :
  ss !! sid = Some s -> stream_started ss sid' name' = true ->
  stream_started (<[sid := {| ds_topic_root := s.(ds_topic_root); ds_streams := s.(ds_streams);
                              ds_init_msgs := s.(ds_init_msgs);
                              ds_image_headers := <[name := hdr]> s.(ds_image_headers) |}]> ss)
    sid' name' = true.
Proof.
  intros Hs H. unfold stream_started in *.
  destruct (decide (sid = sid')) as [<-|Hne].
  - rewrite lookup_insert_eq. rewrite Hs in H. simpl.
    destruct (decide (name = name')) as [<-|Hn].
    + rewrite lookup_insert_eq. reflexivity.
    + rewrite lookup_insert_ne by exact Hn. exact H.
  - rewrite lookup_insert_ne by exact Hne. exact H.
Qed.

(** C5: [start_streaming] records the header (format, width, height of
    the chosen profile) on the device server before it asks the controller
    to start the hardware stream, so every frame callback registered with a
    controller publishes to a stream that already has its header; when the
    header cannot be recorded, no stream is started. *)
Theorem start_streaming_header_before_start (ctrl sid : nat) (sp : stream_profile) (w : world) :
  callbacks_started w = true ->
  callbacks_started (snd (start_streaming ctrl sid sp w)) = true /\
  ((fst (start_streaming ctrl sid sp w) = Ok tt /\
    (snd (start_streaming ctrl sid sp w)).(w_trace) =
      (w.(w_trace) ++ [EvSetImageHeader sid sp.(sp_stream_name) (profile_header sp);
                       EvStartStream ctrl sp])%list /\
    exists s, (snd (start_streaming ctrl sid sp w)).(w_servers) !! sid = Some s /\
      s.(ds_image_headers) !! sp.(sp_stream_name) = Some (profile_header sp)) \/
   (exists e, start_streaming ctrl sid sp w = (Exc e, w))).
Proof.
  intros Hinv. unfold start_streaming, mbind, M_bind, set_image_header.
  destruct (w_servers w !! sid) as [s|] eqn:Hs; [|split; [exact Hinv | right; eauto]].
  case_bool_decide as Hdecl; [|split; [exact Hinv | right; eauto]].
  simpl. split.
  - unfold callbacks_started in *. simpl. rewrite forallb_app. apply andb_true_iff. split.
    + apply forallb_forall. intros cb Hcb.
      apply stream_started_insert_header with (s := s); [exact Hs|].
      apply forallb_forall with (x := cb) in Hinv; [exact Hinv | exact Hcb].
    + simpl. unfold stream_started. rewrite lookup_insert_eq. simpl.
      rewrite lookup_insert_eq. reflexivity.
  - left. split; [reflexivity|]. split.
    + rewrite <- app_assoc. reflexivity.
    + eexists. rewrite lookup_insert_eq. split; [reflexivity|]. simpl.
      rewrite lookup_insert_eq. reflexivity.
Qed.

Lemma start_streaming_header_before_start_witness :
  callbacks_started example_attached_world = true /\
  callbacks_started (snd (start_streaming 1 0 example_color_profile example_attached_world)) = true.
Proof.
  split; [vm_compute; reflexivity|].
  apply (start_streaming_header_before_start 1 0 example_color_profile example_attached_world).
  vm_compute. reflexivity.
Defined.

(** ** C6: a failed publish is logged and the frame dropped *)

Lemma publish_image_exc_state sid name size ok w e w1 :
  publish_image sid name size ok w = (Exc e, w1) -> w1 = w.
Proof.
  unfold publish_image.
  destruct (w_servers w !! sid) as [s|]; [|congruence].
  destruct (ds_image_headers s !! name); [|congruence].
  destruct ok; congruence.
Qed.

(** C6: when publishing a frame fails, the frame callback catches the
    exception, logs it once and returns: nothing is published or retried,
    the servers (and so the stream's started state) and the registered
    callbacks are unchanged, and a later frame of a started stream is
    published when the transport succeeds. *)
Theorem frame_callback_drops_failed_frame (sid : nat) (transport_ok : bool) (f : frame)
    (w : world) (e : string) (w1 : world) :
  publish_image sid f.(f_stream_name) f.(f_data_size) transport_ok w = (Exc e, w1) ->
  frame_callback sid transport_ok f w = (Ok tt, add_log [publish_error_log f e] w) /\
  (add_log [publish_error_log f e] w).(w_servers) = w.(w_servers) /\
  (add_log [publish_error_log f e] w).(w_callbacks) = w.(w_callbacks) /\
  (add_log [publish_error_log f e] w).(w_trace) = w.(w_trace) /\
  forall f' : frame, stream_started w.(w_servers) sid f'.(f_stream_name) = true ->
    frame_callback sid true f' (add_log [publish_error_log f e] w) =
      (Ok tt, emit (EvPublish sid f'.(f_stream_name) f'.(f_data_size)) (add_log [publish_error_log f e] w)).
Proof.
  intros Hpub. pose proof (publish_image_exc_state _ _ _ _ _ _ _ Hpub) as ->.
  split; [unfold frame_callback, try_catch; rewrite Hpub; reflexivity|].
  split; [reflexivity|]. split; [reflexivity|]. split; [reflexivity|].
  intros f' Hst. unfold frame_callback, try_catch, publish_image, stream_started in *. simpl.
  destruct (w_servers w !! sid) as [s|]; [|discriminate].
  destruct (ds_image_headers s !! f_stream_name f'); [reflexivity | discriminate].
Qed.

Lemma frame_callback_drops_failed_frame_witness :
  frame_callback 0 false {| f_stream_name := "Color"; f_data_size := 4096 |} example_attached_world =
  (Ok tt, add_log [publish_error_log {| f_stream_name := "Color"; f_data_size := 4096 |}
                     "DDS write failed"] example_attached_world).
Proof.
  apply (frame_callback_drops_failed_frame 0 false {| f_stream_name := "Color"; f_data_size := 4096 |}
           example_attached_world "DDS write failed" example_attached_world).
  vm_compute. reflexivity.
Defined.

(** ** C7: the video profiles message *)

Lemma to_int8_id z : fits_int8 z -> to_int8 z = z.
Proof.
  unfold fits_int8, to_int8. intros Hz.
  rewrite Z.mod_small by lia. lia.
Qed.

Lemma to_int16_id z : fits_int16 z -> to_int16 z = z.
Proof.
  unfold fits_int16, to_int16. intros Hz.
  rewrite Z.mod_small by lia. lia.
Qed.

Lemma fill_video_profiles_all (sps : list stream_profile) (arr : list video_stream_profile)
    (i : nat) (log : list string) :
  Forall (fun sp => sp.(sp_kind) = VideoProfile) sps ->
  (i + length sps <= length arr)%nat ->
  exists arr',
    fill_video_profiles sps arr i log = Some (arr', (i + length sps)%nat, log) /\
    length arr' = length arr /\
    (forall j, (j < i)%nat -> arr' !! j = arr !! j) /\
    (forall j, (j < length sps)%nat -> arr' !! (i + j)%nat = (to_video_stream_profile <$> sps) !! j).
Proof.
  revert arr i. induction sps as [|sp sps IH]; intros arr i Hall Hlen.
  - exists arr. rewrite Nat.add_0_r. split; [reflexivity|]. split; [reflexivity|].
    split; [auto|]. intros j Hj. simpl in Hj. lia.
  - inversion Hall as [|? ? Hsp Hall']; subst. simpl in Hlen.
    simpl. rewrite Hsp. unfold array_store.
    replace ((i <? length arr)%nat) with true by (symmetry; apply Nat.ltb_lt; lia).
    simpl.
    destruct (IH (<[i := to_video_stream_profile sp]> arr) (S i) Hall')
      as (arr' & Hfill & Hl & Hpre & Hpost).
    { rewrite length_insert. lia. }
    exists arr'. rewrite Hfill. replace (S i + length sps)%nat with (i + S (length sps))%nat by lia.
    split; [reflexivity|]. split; [rewrite Hl, length_insert; reflexivity|]. split.
    + intros j Hj. rewrite Hpre by lia. apply list_lookup_insert_ne. lia.
    + intros [|j] Hj.
      * rewrite Nat.add_0_r, Hpre by lia. apply list_lookup_insert_eq. lia.
      * replace (i + S j)%nat with (S i + j)%nat by lia. simpl in Hj.
        rewrite Hpost by lia. reflexivity.
Qed.

(** C7 (amended): from N video profiles, a group name that fits its
    buffer and an array with room for N entries, the message has
    [num_of_profiles] = N and, in its first N entries and in input order,
    the inputs' fields converted to the message's widths: [stream_index]
    to int8, [unique_id], [fps], [width] and [height] to int16 (wrapping
    around), [format], [stream_type] and [is_default] unchanged; a
    converted field equals the input when the value fits its width. *)
Theorem prepare_video_profiles_messeges_entries (GROUP_NAME_SIZE : nat) (sensor_name : string)
    (sps : list stream_profile) (msg : video_stream_profiles_msg) :
  Forall (fun sp => sp.(sp_kind) = VideoProfile) sps ->
  (String.length sensor_name < GROUP_NAME_SIZE)%nat ->
  (length sps <= length msg.(vm_profiles))%nat ->
  (exists out,
    prepare_video_profiles_messeges GROUP_NAME_SIZE sensor_name sps msg = Some (out, []) /\
    out.(vm_group_name) = sensor_name /\
    out.(vm_num_of_profiles) = Z.of_nat (length sps) /\
    (forall j, (j < length sps)%nat -> out.(vm_profiles) !! j = (to_video_stream_profile <$> sps) !! j)) /\
  (forall sp, fits_int8 sp.(sp_stream_index) -> fits_int16 sp.(sp_unique_id) ->
     fits_int16 sp.(sp_fps) -> fits_int16 sp.(sp_width) -> fits_int16 sp.(sp_height) ->
     to_video_stream_profile sp =
       {| v_stream_index := sp.(sp_stream_index); v_uid := sp.(sp_unique_id);
          v_framerate := sp.(sp_fps); v_format := sp.(sp_format); v_type := sp.(sp_stream_type);
          v_width := sp.(sp_width); v_height := sp.(sp_height);
          v_default_profile := sp.(sp_is_default) |}).
Proof.
  intros Hall Hname Hlen. split.
  - destruct (fill_video_profiles_all sps (vm_profiles msg) 0 [] Hall ltac:(lia))
      as (arr' & Hfill & _ & _ & Hpost).
    unfold prepare_video_profiles_messeges, strcpy_s.
    replace ((String.length sensor_name <? GROUP_NAME_SIZE)%nat) with true
      by (symmetry; apply Nat.ltb_lt; exact Hname).
    simpl. rewrite Hfill. simpl.
    eexists. split; [reflexivity|]. simpl. split; [reflexivity|]. split; [reflexivity|].
    intros j Hj. exact (Hpost j Hj).
  - intros sp H1 H2 H3 H4 H5. unfold to_video_stream_profile.
    rewrite to_int8_id, !to_int16_id by assumption. reflexivity.
Qed.

Lemma prepare_video_profiles_messeges_entries_witness :
  exists out,
    prepare_video_profiles_messeges 32 "RGB Camera" [example_color_profile] example_video_msg = Some (out, []) /\
    out.(vm_group_name) = "RGB Camera" /\
    out.(vm_num_of_profiles) = 1%Z /\
    (forall j, (j < 1)%nat -> out.(vm_profiles) !! j = (to_video_stream_profile <$> [example_color_profile]) !! j).
Proof.
  apply (prepare_video_profiles_messeges_entries 32 "RGB Camera" [example_color_profile] example_video_msg).
  - repeat constructor.
  - vm_compute. lia.
  - vm_compute. lia.
Defined.

(** C7 counterexample: a single video profile with unique id 40000 gives
    a message whose one entry carries the unique id -25536, not 40000. *)
Lemma prepare_video_profiles_messeges_narrows_unique_id :
  match prepare_video_profiles_messeges 32 "RGB Camera" [example_large_uid_profile] example_video_msg with
  | Some (out, _) =>
      out.(vm_num_of_profiles) = 1%Z /\
      (v_uid <$> out.(vm_profiles) !! 0%nat) = Some (-25536)%Z /\
      (v_uid <$> out.(vm_profiles) !! 0%nat) <> Some example_large_uid_profile.(sp_unique_id)
  | None => False
  end.
Proof. vm_compute. split; [reflexivity|]. split; [reflexivity|]. discriminate. Qed.

(** ** C8: fatal start-up conditions *)

(** C8: [main] returns EXIT_FAILURE, which is non-zero, before entering
    the run loop when the domain id given on the command line is above 232
    (outside 0-232 for the unsigned [dds_domain_id]) or when
    [broadcaster.run()] fails. *)
Theorem main_startup_fatal (domain_arg : option dds_domain_id)
    (participant_init_ok broadcaster_run_ok : bool) :
  (exists domain, domain_arg = Some domain /\ (232 < domain)%N) \/ broadcaster_run_ok = false ->
  main_startup domain_arg participant_init_ok broadcaster_run_ok = MainExit EXIT_FAILURE /\
  EXIT_FAILURE <> 0%Z.
Proof.
  intros H. split; [|unfold EXIT_FAILURE; lia].
  unfold main_startup.
  destruct H as [(domain & -> & Hd) | ->].
  - replace ((232 <? domain)%N) with true by (symmetry; apply N.ltb_lt; exact Hd).
    reflexivity.
  - destruct domain_arg as [domain|].
    + destruct ((232 <? domain)%N); [reflexivity|].
      destruct participant_init_ok; reflexivity.
    + destruct participant_init_ok; reflexivity.
Qed.

Lemma main_startup_fatal_witness :
  main_startup (Some 233%N) true true = MainExit EXIT_FAILURE /\
  main_startup (Some 0%N) true false = MainExit EXIT_FAILURE.
Proof.
  split.
  - apply (main_startup_fatal (Some 233%N) true true). left. exists 233%N. split; [reflexivity | lia].
  - apply (main_startup_fatal (Some 0%N) true false). right. reflexivity.
Defined.

(** ** C4: a per-device error during attach *)

Lemma keeps_bind {A B} P (m : M A) (f : A -> M B) :
  keeps P m -> (forall a, keeps P (f a)) -> keeps P (m ≫= f).
Proof. intros Hm Hf. apply (triple_bind (fun _ => P)); assumption. Qed.

Lemma keeps_ret {A} P (a : A) : keeps P (mret a).
Proof. apply triple_ret. auto. Qed.

Lemma keeps_throw {A} P msg : keeps P (@throw A msg).
Proof. apply triple_throw. auto. Qed.

Lemma keeps_modify P g : (forall w, P w -> P (g w)) -> keeps P (modify g).
Proof. intros H. apply triple_modify. exact H. Qed.

Lemma triple_trivial {A} (m : M A) P : triple P m (fun _ _ => True) (fun _ _ => True).
Proof. intros w _. destruct (m w) as [[]]; exact I. Qed.

Lemma triple_false {A} (m : M A) Q E : triple (fun _ => False) m Q E.
Proof. intros w []. Qed.

Section AttachFrame.
Variables (w0 : world) (d sid : nat) (info : device_info).
Let Fr := attach_frame w0 d sid info.

Lemma update_server_frame f : keeps Fr (update_server sid f).
Proof.
  intros w (Hh & Hs & Hc & Ha). unfold update_server.
  destruct (w_servers w !! sid); [|split; auto].
  simpl. split; [exact Hh|]. split; [|split; assumption].
  intros sid' Hne. simpl. rewrite lookup_insert_ne by congruence. apply Hs. exact Hne.
Qed.

Lemma add_init_msg_frame msg : keeps Fr (add_init_msg sid msg).
Proof. apply update_server_frame. Qed.

Lemma add_log_frame l : keeps Fr (modify (add_log l)).
Proof. apply keeps_modify. intros w H. exact H. Qed.

Lemma add_init_profiles_loop_frame GN vdef mdef sensors :
  keeps Fr (add_init_profiles_loop GN vdef mdef sid sensors).
Proof.
  induction sensors as [|s sensors IH]; simpl; [apply keeps_ret|].
  apply keeps_bind; [|intros; exact IH].
  unfold add_sensor_profiles_msg. destruct (s_kind s).
  1,2: destruct (prepare_video_profiles_messeges GN (s_name s) (s_profiles s) vdef) as [[msg log]|].
  5: destruct (prepare_motion_profiles_messeges GN (s_name s) (s_profiles s) mdef) as [[msg log]|].
  1,3,5: apply keeps_bind; [apply add_log_frame|intros []];
         case_match; [apply add_init_msg_frame | apply keeps_ret].
  all: apply keeps_throw.
Qed.

Lemma set_image_header_frame name hdr : keeps Fr (set_image_header sid name hdr).
Proof.
  intros w (Hh & Hs & Hc & Ha). unfold set_image_header.
  destruct (w_servers w !! sid); [|split; auto].
  case_bool_decide; [|split; auto]. simpl.
  split; [exact Hh|]. split; [|split; assumption].
  intros sid' Hne. simpl. rewrite lookup_insert_ne by congruence. apply Hs. exact Hne.
Qed.
End AttachFrame.

(** Every throw of the attach handler leaves the other devices' entries,
    the other servers, the frame callbacks and the earlier announcements
    as they were. *)
Lemma on_device_connected_exc_frame GN vdef mdef (dev : device) (w : world) what w' :
  on_device_connected GN vdef mdef dev w = (Exc what, w') ->
  attach_frame w dev.(dev_handle) w.(w_next_id) (rs2_device_to_info dev) w'.
Proof.
  set (n0 := w_next_id w).
  set (Fr := attach_frame w dev.(dev_handle) n0 (rs2_device_to_info dev)).
  assert (H : triple (fun w1 => w1 = w) (on_device_connected GN vdef mdef dev)
                (fun _ _ => True) (fun _ => Fr)).
  { unfold on_device_connected.
    apply (triple_bind (fun _ w1 => Fr w1 /\ w_next_id w1 = n0)).
    { apply triple_modify. intros w1 ->. split; [|reflexivity].
      split; [auto|]. split; [auto|]. split; reflexivity. }
    intros _.
    apply (triple_bind (fun s w2 => s = n0 /\ Fr w2)).
    { intros w1 [(Hh & Hs & Hc & Ha) Hn]. unfold make_device_server, mbind, M_bind, alloc_id. simpl.
      split; [exact Hn|]. split; [exact Hh|]. split; [|split; assumption].
      intros sid' Hne. simpl. rewrite lookup_insert_ne by congruence. apply Hs. exact Hne. }
    intros server.
    apply (triple_bind (fun _ w3 => server = n0 /\ Fr w3)).
    { intros w1 [-> Hf]. pose proof (update_server_frame w (dev_handle dev) n0 (rs2_device_to_info dev)
        (fun s => {| ds_topic_root := s.(ds_topic_root); ds_streams := get_supported_streams dev;
                     ds_init_msgs := s.(ds_init_msgs); ds_image_headers := s.(ds_image_headers) |}) w1 Hf) as Hu.
      unfold server_init. destruct (update_server _ _ w1) as [[]]; auto. }
    intros _.
    apply (triple_bind (fun _ w4 => server = n0 /\ Fr w4)).
    { intros w1 [-> (Hh & Hs & Hc & Ha)]. split; [reflexivity|]. split; [exact Hh|].
      split; [exact Hs|]. split; assumption. }
    intros ctrl.
    apply (triple_bind (fun _ w5 => server = n0 /\ Fr w5)).
    { apply triple_modify. intros w1 [-> (Hh & Hs & Hc & Ha)]. split; [reflexivity|].
      destruct (w_handlers w1 !! dev_handle dev); [split; [exact Hh|auto]|].
      split; [|split; [exact Hs|split; assumption]].
      intros k Hk. simpl. rewrite lookup_insert_ne by congruence. apply Hh. exact Hk. }
    intros _.
    apply (triple_bind (fun _ w6 => server = n0 /\ Fr w6)).
    { intros w1 [-> Hf].
      assert (Hk : keeps Fr (init_dds_device GN vdef mdef dev n0)).
      { unfold init_dds_device, add_init_device_header_msg, add_init_profiles_msgs.
        apply keeps_bind; [apply add_init_msg_frame | intros _; apply add_init_profiles_loop_frame]. }
      specialize (Hk w1 Hf). destruct (init_dds_device GN vdef mdef dev n0 w1) as [[] w2]; auto. }
    intros _.
    apply (triple_bind (fun _ w7 => server = n0 /\ Fr w7)).
    { intros w1 [H1 Hf]. unfold first_color_sensor. destruct (List.find _ _); simpl; auto. }
    intros color.
    apply (triple_bind (fun _ w8 => server = n0 /\ Fr w8)).
    { intros w1 [H1 Hf]. unfold get_required_profile. destruct (List.find _ _); simpl; auto. }
    intros profile.
    intros w1 [-> Hf]. unfold start_streaming.
    pose proof (set_image_header_frame w (dev_handle dev) n0 (rs2_device_to_info dev)
                  (sp_stream_name profile) (profile_header profile) w1 Hf) as Hs.
    unfold mbind, M_bind, profile_header in *.
    destruct (set_image_header _ _ _ w1) as [[] w2]; [|exact Hs].
    exact I. }
  intros Hrun. specialize (H w eq_refl). rewrite Hrun in H. exact H.
Qed.

Ltac trivial_step := apply (triple_bind (fun _ _ => True)); [apply triple_trivial | intros ?].

Lemma add_init_profiles_loop_throws GN vdef mdef server (sensors : list sensor) P :
  Exists (fun s => s.(s_kind) = OtherSensor) sensors ->
  triple P (add_init_profiles_loop GN vdef mdef server sensors) (fun _ _ => False) (fun _ _ => True).
Proof.
  intros Hex. revert P. induction Hex as [s sensors Hs|s sensors _ IH]; intros P; simpl.
  - apply (triple_bind (fun _ _ => False)); [|intros; apply triple_false].
    unfold add_sensor_profiles_msg. rewrite Hs. apply triple_throw. auto.
  - trivial_step. apply IH.
Qed.

(** Under either error condition, the attach handler throws. *)
Lemma on_device_connected_throws GN vdef mdef (dev : device) (w : world) :
  (Exists (fun s => s.(s_kind) = OtherSensor) dev.(dev_sensors) \/
   exists color, List.find is_color_sensor dev.(dev_sensors) = Some color /\
     List.find (profile_matches RS2_STREAM_COLOR 30 RS2_FORMAT_RGB8 1280 720) color.(s_profiles) = None) ->
  exists what w', on_device_connected GN vdef mdef dev w = (Exc what, w').
Proof.
  intros Hcase.
  assert (H : triple (fun _ => True) (on_device_connected GN vdef mdef dev)
                (fun _ _ => False) (fun _ _ => True)).
  { unfold on_device_connected.
    do 5 trivial_step.
    destruct Hcase as [Hex | (color & Hfind & Hnone)].
    - apply (triple_bind (fun _ _ => False)); [|intros; apply triple_false].
      unfold init_dds_device. trivial_step.
      apply add_init_profiles_loop_throws. exact Hex.
    - trivial_step.
      apply (triple_bind (fun c _ => c = color)).
      { intros w1 _. unfold first_color_sensor. rewrite Hfind. reflexivity. }
      intros c.
      apply (triple_bind (fun _ _ => False)); [|intros; apply triple_false].
      intros w1 ->. unfold get_required_profile. rewrite Hnone. exact I. }
  specialize (H w I). destruct (on_device_connected GN vdef mdef dev w) as [[a|what] w'].
  - contradiction.
  - exists what, w'. reflexivity.
Qed.

(** C4: when attaching a device meets a sensor of an unsupported kind, or
    its first color sensor has no 1280x720 RGB8 30 fps profile, the
    handler throws; the watcher logs the error and carries on, that
    device's bridging stops there (no stream is started), and the handler
    entries of other devices, the other servers, the registered frame
    callbacks and the earlier announcements are left as they were. *)
Theorem watcher_on_device_connected_contains_error (GROUP_NAME_SIZE : nat)
    (vdef : video_stream_profiles_msg) (mdef : motion_stream_profiles_msg)
    (dev : device) (w : world) :
  (Exists (fun s => s.(s_kind) = OtherSensor) dev.(dev_sensors) \/
   exists color, List.find is_color_sensor dev.(dev_sensors) = Some color /\
     List.find (profile_matches RS2_STREAM_COLOR 30 RS2_FORMAT_RGB8 1280 720) color.(s_profiles) = None) ->
  exists what w',
    on_device_connected GROUP_NAME_SIZE vdef mdef dev w = (Exc what, w') /\
    watcher_on_device_connected GROUP_NAME_SIZE vdef mdef dev w = add_log [what] w' /\
    last (watcher_on_device_connected GROUP_NAME_SIZE vdef mdef dev w).(w_log) = Some what /\
    attach_frame w dev.(dev_handle) w.(w_next_id) (rs2_device_to_info dev)
      (watcher_on_device_connected GROUP_NAME_SIZE vdef mdef dev w).
Proof.
  intros Hcase.
  destruct (on_device_connected_throws GROUP_NAME_SIZE vdef mdef dev w Hcase) as (what & w' & Hrun).
  pose proof (on_device_connected_exc_frame _ _ _ _ _ _ _ Hrun) as Hfr.
  exists what, w'. unfold watcher_on_device_connected. rewrite Hrun.
  split; [reflexivity|]. split; [reflexivity|]. split.
  - simpl. apply last_snoc.
  - exact Hfr.
Qed.

Lemma watcher_on_device_connected_contains_error_witness :
  exists what w',
    on_device_connected 32 example_video_msg example_motion_msg example_unsupported_device
      example_attached_world = (Exc what, w') /\
    watcher_on_device_connected 32 example_video_msg example_motion_msg example_unsupported_device
      example_attached_world = add_log [what] w' /\
    last (watcher_on_device_connected 32 example_video_msg example_motion_msg example_unsupported_device
            example_attached_world).(w_log) = Some what /\
    attach_frame example_attached_world example_unsupported_device.(dev_handle)
      example_attached_world.(w_next_id) (rs2_device_to_info example_unsupported_device)
      (watcher_on_device_connected 32 example_video_msg example_motion_msg example_unsupported_device
         example_attached_world).
Proof.
  apply watcher_on_device_connected_contains_error.
  left. apply Exists_cons_tl, Exists_cons_hd. reflexivity.
Defined.

(* ================================================================== *)
(** * Further properties of the bridge *)

(** ** Supported streams and the required profile *)

(** X1: [get_supported_streams] lists each name once, and exactly the
    stream names of the profiles of the device's sensors. *)
Theorem get_supported_streams_names (dev : device) :
  NoDup (get_supported_streams dev) /\
  forall x, x ∈ get_supported_streams dev <->
    exists s sp, s ∈ dev.(dev_sensors) /\ sp ∈ s.(s_profiles) /\ sp.(sp_stream_name) = x.
Proof.
  unfold get_supported_streams. split; [apply NoDup_remove_dups|].
  intros x. rewrite elem_of_remove_dups, list_elem_of_fmap. split.
  - intros (sp & -> & Hsp). apply list_elem_of_join in Hsp as (ps & Hsp & Hps).
    apply list_elem_of_fmap in Hps as (s & -> & Hs). eauto.
  - intros (s & sp & Hs & Hsp & <-). exists sp. split; [reflexivity|].
    apply list_elem_of_join. exists (s_profiles s). split; [exact Hsp|].
    apply list_elem_of_fmap. eauto.
Qed.

Lemma profile_matches_true stream fps format width height sp :
  profile_matches stream fps format width height sp = true <->
  required_fields stream fps format width height sp.
Proof.
  unfold profile_matches, required_fields.
  rewrite !andb_true_iff, !Z.eqb_eq. tauto.
Qed.

Lemma find_first {A} (f : A -> bool) (l : list A) (x : A) :
  List.find f l = Some x ->
  exists l1 l2, l = (l1 ++ x :: l2)%list /\ Forall (fun y => f y = false) l1.
Proof.
  induction l as [|y l IH]; simpl; [discriminate|].
  destruct (f y) eqn:Fy.
  - intros [= ->]. exists [], l. auto.
  - intros Hf. destruct (IH Hf) as (l1 & l2 & -> & Hl1).
    exists (y :: l1), l2. auto.
Qed.

Lemma find_none_forall {A} (f : A -> bool) (l : list A) :
  List.find f l = None -> Forall (fun y => f y = false) l.
Proof.
  induction l as [|y l IH]; simpl; [constructor|].
  destruct (f y) eqn:Fy; [discriminate|]. intros Hf. constructor; auto.
Qed.

(** X2: [get_required_profile] returns the first profile of the sensor
    (in [get_stream_profiles()] order) with the requested stream type,
    fps, format, width and height; when no profile has them all it throws
    "Could not find required profile". The state is untouched either way. *)
Theorem get_required_profile_first_match (s : sensor) (stream fps format width height : Z) (w : world) :
  match get_required_profile s stream fps format width height w with
  | (Ok sp, w') =>
      w' = w /\ required_fields stream fps format width height sp /\
      exists l1 l2, s.(s_profiles) = (l1 ++ sp :: l2)%list /\
        Forall (fun q => ~ required_fields stream fps format width height q) l1
  | (Exc what, w') =>
      w' = w /\ what = "Could not find required profile" /\
      Forall (fun q => ~ required_fields stream fps format width height q) s.(s_profiles)
  end.
Proof.
  unfold get_required_profile.
  destruct (List.find _ _) as [sp|] eqn:Hf; simpl.
  - split; [reflexivity|]. split.
    + apply profile_matches_true. apply (List.find_some _ _ Hf).
    + destruct (find_first _ _ _ Hf) as (l1 & l2 & Hl & Hl1). exists l1, l2.
      split; [exact Hl|]. eapply Forall_impl; [exact Hl1|].
      intros q Hq Hr%profile_matches_true. congruence.
  - split; [reflexivity|]. split; [reflexivity|].
    eapply Forall_impl; [exact (find_none_forall _ _ Hf)|].
    intros q Hq Hr%profile_matches_true. congruence.
Qed.

(** ** The profiles messages *)

Lemma fill_video_profiles_mixed (sps : list stream_profile) (arr : list video_stream_profile)
    (i : nat) (log : list string) :
  (i + length (List.filter is_video sps) <= length arr)%nat ->
  exists arr',
    fill_video_profiles sps arr i log =
      Some (arr', (i + length (List.filter is_video sps))%nat,
            (log ++ (illegal_profile_log <$> List.filter (fun sp => negb (is_video sp)) sps))%list) /\
    length arr' = length arr /\
    (forall j, (j < i \/ i + length (List.filter is_video sps) <= j)%nat -> arr' !! j = arr !! j) /\
    (forall j, (j < length (List.filter is_video sps))%nat ->
       arr' !! (i + j)%nat = (to_video_stream_profile <$> List.filter is_video sps) !! j).
Proof.
  revert arr i log. induction sps as [|sp sps IH]; intros arr i log Hlen.
  - exists arr. simpl. rewrite Nat.add_0_r, app_nil_r. split; [reflexivity|].
    split; [reflexivity|]. split; [auto|]. intros j Hj. lia.
  - destruct (sp_kind sp) eqn:K.
    + assert (Hv : is_video sp = true) by (unfold is_video; rewrite K; reflexivity).
      simpl in Hlen |- *. rewrite Hv in Hlen |- *. simpl in Hlen |- *. rewrite K.
      unfold array_store.
      replace ((i <? length arr)%nat) with true by (symmetry; apply Nat.ltb_lt; lia).
      simpl.
      destruct (IH (<[i := to_video_stream_profile sp]> arr) (S i) log) as (arr' & Hfill & Hl & Hout & Hin).
      { rewrite length_insert. lia. }
      exists arr'. rewrite Hfill.
      replace (S i + length (List.filter is_video sps))%nat
        with (i + S (length (List.filter is_video sps)))%nat by lia.
      split; [reflexivity|]. split; [rewrite Hl, length_insert; reflexivity|]. split.
      * intros j Hj. rewrite Hout by lia. apply list_lookup_insert_ne. lia.
      * intros [|j] Hj.
        -- rewrite Nat.add_0_r, Hout by lia. apply list_lookup_insert_eq. lia.
        -- replace (i + S j)%nat with (S i + j)%nat by lia.
           rewrite Hin by lia. reflexivity.
    + assert (Hv : is_video sp = false) by (unfold is_video; rewrite K; reflexivity).
      simpl in Hlen |- *. rewrite Hv in Hlen |- *. simpl. rewrite K.
      destruct (IH arr i (log ++ [illegal_profile_log sp])%list Hlen) as (arr' & Hfill & Hrest).
      exists arr'. rewrite Hfill, <- app_assoc. split; [reflexivity|]. exact Hrest.
    + assert (Hv : is_video sp = false) by (unfold is_video; rewrite K; reflexivity).
      simpl in Hlen |- *. rewrite Hv in Hlen |- *. simpl. rewrite K.
      destruct (IH arr i (log ++ [illegal_profile_log sp])%list Hlen) as (arr' & Hfill & Hrest).
      exists arr'. rewrite Hfill, <- app_assoc. split; [reflexivity|]. exact Hrest.
Qed.

Lemma fill_video_profiles_none (sps : list stream_profile) (arr : list video_stream_profile)
    (i : nat) (log : list string) :
  (i <= length arr)%nat ->
  fill_video_profiles sps arr i log = None <->
  (length arr < i + length (List.filter is_video sps))%nat.
Proof.
  revert arr i log. induction sps as [|sp sps IH]; intros arr i log Hi.
  - simpl. split; [discriminate|lia].
  - destruct (sp_kind sp) eqn:K.
    + assert (Hv : is_video sp = true) by (unfold is_video; rewrite K; reflexivity).
      simpl. rewrite Hv, K. simpl. unfold array_store.
      destruct ((i <? length arr)%nat) eqn:L; simpl.
      * apply Nat.ltb_lt in L. rewrite IH by (rewrite length_insert; lia).
        rewrite length_insert. lia.
      * apply Nat.ltb_ge in L. split; [intros _; lia|reflexivity].
    + assert (Hv : is_video sp = false) by (unfold is_video; rewrite K; reflexivity).
      simpl. rewrite Hv, K. apply IH. exact Hi.
    + assert (Hv : is_video sp = false) by (unfold is_video; rewrite K; reflexivity).
      simpl. rewrite Hv, K. apply IH. exact Hi.
Qed.

(** X3: from any mix of profiles, when the sensor name fits the
    [group_name] buffer and the array has room for the video profiles,
    [prepare_video_profiles_messeges] keeps exactly the video profiles:
    [num_of_profiles] is their count, the first entries are their
    conversions in input order, the entries past them keep what the array
    held before, and each other profile gives one "got illegal profile"
    log line, in input order. *)
Theorem prepare_video_profiles_messeges_filters (GROUP_NAME_SIZE : nat) (sensor_name : string)
    (sps : list stream_profile) (msg : video_stream_profiles_msg) :
  (String.length sensor_name < GROUP_NAME_SIZE)%nat ->
  (length (List.filter is_video sps) <= length msg.(vm_profiles))%nat ->
  exists out,
    prepare_video_profiles_messeges GROUP_NAME_SIZE sensor_name sps msg =
      Some (out, illegal_profile_log <$> List.filter (fun sp => negb (is_video sp)) sps) /\
    out.(vm_group_name) = sensor_name /\
    out.(vm_num_of_profiles) = Z.of_nat (length (List.filter is_video sps)) /\
    length out.(vm_profiles) = length msg.(vm_profiles) /\
    (forall j, (j < length (List.filter is_video sps))%nat ->
       out.(vm_profiles) !! j = (to_video_stream_profile <$> List.filter is_video sps) !! j) /\
    (forall j, (length (List.filter is_video sps) <= j)%nat ->
       out.(vm_profiles) !! j = msg.(vm_profiles) !! j).
Proof.
  intros Hn Hc. unfold prepare_video_profiles_messeges, strcpy_s.
  replace ((String.length sensor_name <? GROUP_NAME_SIZE)%nat) with true
    by (symmetry; apply Nat.ltb_lt; exact Hn).
  destruct (fill_video_profiles_mixed sps (vm_profiles msg) 0 [] Hc)
    as (arr' & Hfill & Hl & Hout & Hin).
  simpl. rewrite Hfill. simpl.
  eexists. split; [reflexivity|]. simpl.
  split; [reflexivity|]. split; [reflexivity|]. split; [exact Hl|]. split.
  - intros j Hj. exact (Hin j Hj).
  - intros j Hj. apply Hout. lia.
Qed.

(** X4: [prepare_video_profiles_messeges] breaks a runtime constraint
    (the [strcpy_s] of a sensor name with no room for its NUL) or writes
    past the end of the [profiles] array exactly when the name does not
    fit the buffer or there are more video profiles than array entries. *)
Theorem prepare_video_profiles_messeges_fails (GROUP_NAME_SIZE : nat) (sensor_name : string)
    (sps : list stream_profile) (msg : video_stream_profiles_msg) :
  prepare_video_profiles_messeges GROUP_NAME_SIZE sensor_name sps msg = None <->
  (GROUP_NAME_SIZE <= String.length sensor_name \/
   length msg.(vm_profiles) < length (List.filter is_video sps))%nat.
Proof.
  unfold prepare_video_profiles_messeges, strcpy_s.
  destruct ((String.length sensor_name <? GROUP_NAME_SIZE)%nat) eqn:L; simpl.
  - apply Nat.ltb_lt in L.
    pose proof (fill_video_profiles_none sps (vm_profiles msg) 0 [] ltac:(lia)) as Hn.
    destruct (fill_video_profiles _ _ _ _) as [[[arr i] log]|] eqn:F; simpl.
    + split; [discriminate|]. intros [H|H]; [lia|]. apply Hn in H. discriminate.
    + split; [intros _; right; apply Hn; reflexivity | reflexivity].
  - apply Nat.ltb_ge in L. split; [intros _; left; exact L | reflexivity].
Qed.
Lemma fill_motion_profiles_mixed (sps : list stream_profile) (arr : list motion_stream_profile)
    (i : nat) (log : list string) :
  (i + length (List.filter is_motion sps) <= length arr)%nat ->
  exists arr',
    fill_motion_profiles sps arr i log =
      Some (arr', (i + length (List.filter is_motion sps))%nat,
            (log ++ (illegal_profile_log <$> List.filter (fun sp => negb (is_motion sp)) sps))%list) /\
    length arr' = length arr /\
    (forall j, (j < i \/ i + length (List.filter is_motion sps) <= j)%nat -> arr' !! j = arr !! j) /\
    (forall j, (j < length (List.filter is_motion sps))%nat ->
       arr' !! (i + j)%nat = (to_motion_stream_profile <$> List.filter is_motion sps) !! j).
Proof.
  revert arr i log. induction sps as [|sp sps IH]; intros arr i log Hlen.
  - exists arr. simpl. rewrite Nat.add_0_r, app_nil_r. split; [reflexivity|].
    split; [reflexivity|]. split; [auto|]. intros j Hj. lia.
  - destruct (sp_kind sp) eqn:K.
    + assert (Hv : is_motion sp = false) by (unfold is_motion; rewrite K; reflexivity).
      simpl in Hlen |- *. rewrite Hv in Hlen |- *. simpl. rewrite K.
      destruct (IH arr i (log ++ [illegal_profile_log sp])%list Hlen) as (arr' & Hfill & Hrest).
      exists arr'. rewrite Hfill, <- app_assoc. split; [reflexivity|]. exact Hrest.
    + assert (Hv : is_motion sp = true) by (unfold is_motion; rewrite K; reflexivity).
      simpl in Hlen |- *. rewrite Hv in Hlen |- *. simpl in Hlen |- *. rewrite K.
      unfold array_store.
      replace ((i <? length arr)%nat) with true by (symmetry; apply Nat.ltb_lt; lia).
      simpl.
      destruct (IH (<[i := to_motion_stream_profile sp]> arr) (S i) log) as (arr' & Hfill & Hl & Hout & Hin).
      { rewrite length_insert. lia. }
      exists arr'. rewrite Hfill.
      replace (S i + length (List.filter is_motion sps))%nat
        with (i + S (length (List.filter is_motion sps)))%nat by lia.
      split; [reflexivity|]. split; [rewrite Hl, length_insert; reflexivity|]. split.
      * intros j Hj. rewrite Hout by lia. apply list_lookup_insert_ne. lia.
      * intros [|j] Hj.
        -- rewrite Nat.add_0_r, Hout by lia. apply list_lookup_insert_eq. lia.
        -- replace (i + S j)%nat with (S i + j)%nat by lia.
           rewrite Hin by lia. reflexivity.
    + assert (Hv : is_motion sp = false) by (unfold is_motion; rewrite K; reflexivity).
      simpl in Hlen |- *. rewrite Hv in Hlen |- *. simpl. rewrite K.
      destruct (IH arr i (log ++ [illegal_profile_log sp])%list Hlen) as (arr' & Hfill & Hrest).
      exists arr'. rewrite Hfill, <- app_assoc. split; [reflexivity|]. exact Hrest.
Qed.

Lemma fill_motion_profiles_none (sps : list stream_profile) (arr : list motion_stream_profile)
    (i : nat) (log : list string) :
  (i <= length arr)%nat ->
  fill_motion_profiles sps arr i log = None <->
  (length arr < i + length (List.filter is_motion sps))%nat.
Proof.
  revert arr i log. induction sps as [|sp sps IH]; intros arr i log Hi.
  - simpl. split; [discriminate|lia].
  - destruct (sp_kind sp) eqn:K.
    + assert (Hv : is_motion sp = false) by (unfold is_motion; rewrite K; reflexivity).
      simpl. rewrite Hv, K. apply IH. exact Hi.
    + assert (Hv : is_motion sp = true) by (unfold is_motion; rewrite K; reflexivity).
      simpl. rewrite Hv, K. simpl. unfold array_store.
      destruct ((i <? length arr)%nat) eqn:L; simpl.
      * apply Nat.ltb_lt in L. rewrite IH by (rewrite length_insert; lia).
        rewrite length_insert. lia.
      * apply Nat.ltb_ge in L. split; [intros _; lia|reflexivity].
    + assert (Hv : is_motion sp = false) by (unfold is_motion; rewrite K; reflexivity).
      simpl. rewrite Hv, K. apply IH. exact Hi.
Qed.

(** X5: from any mix of profiles, when the sensor name fits the
    [group_name] buffer and the array has room for the motion profiles,
    [prepare_motion_profiles_messeges] keeps exactly the motion profiles:
    [num_of_profiles] is their count, the first entries are their
    conversions in input order, the entries past them keep what the array
    held before, and each other profile gives one "got illegal profile"
    log line, in input order. *)
Theorem prepare_motion_profiles_messeges_filters (GROUP_NAME_SIZE : nat) (sensor_name : string)
    (sps : list stream_profile) (msg : motion_stream_profiles_msg) :
  (String.length sensor_name < GROUP_NAME_SIZE)%nat ->
  (length (List.filter is_motion sps) <= length msg.(mm_profiles))%nat ->
  exists out,
    prepare_motion_profiles_messeges GROUP_NAME_SIZE sensor_name sps msg =
      Some (out, illegal_profile_log <$> List.filter (fun sp => negb (is_motion sp)) sps) /\
    out.(mm_group_name) = sensor_name /\
    out.(mm_num_of_profiles) = Z.of_nat (length (List.filter is_motion sps)) /\
    length out.(mm_profiles) = length msg.(mm_profiles) /\
    (forall j, (j < length (List.filter is_motion sps))%nat ->
       out.(mm_profiles) !! j = (to_motion_stream_profile <$> List.filter is_motion sps) !! j) /\
    (forall j, (length (List.filter is_motion sps) <= j)%nat ->
       out.(mm_profiles) !! j = msg.(mm_profiles) !! j).
Proof.
  intros Hn Hc. unfold prepare_motion_profiles_messeges, strcpy_s.
  replace ((String.length sensor_name <? GROUP_NAME_SIZE)%nat) with true
    by (symmetry; apply Nat.ltb_lt; exact Hn).
  destruct (fill_motion_profiles_mixed sps (mm_profiles msg) 0 [] Hc)
    as (arr' & Hfill & Hl & Hout & Hin).
  simpl. rewrite Hfill. simpl.
  eexists. split; [reflexivity|]. simpl.
  split; [reflexivity|]. split; [reflexivity|]. split; [exact Hl|]. split.
  - intros j Hj. exact (Hin j Hj).
  - intros j Hj. apply Hout. lia.
Qed.

(** X6: [prepare_motion_profiles_messeges] breaks a runtime constraint
    (the [strcpy_s] of a sensor name with no room for its NUL) or writes
    past the end of the [profiles] array exactly when the name does not
    fit the buffer or there are more motion profiles than array entries. *)
Theorem prepare_motion_profiles_messeges_fails (GROUP_NAME_SIZE : nat) (sensor_name : string)
    (sps : list stream_profile) (msg : motion_stream_profiles_msg) :
  prepare_motion_profiles_messeges GROUP_NAME_SIZE sensor_name sps msg = None <->
  (GROUP_NAME_SIZE <= String.length sensor_name \/
   length msg.(mm_profiles) < length (List.filter is_motion sps))%nat.
Proof.
  unfold prepare_motion_profiles_messeges, strcpy_s.
  destruct ((String.length sensor_name <? GROUP_NAME_SIZE)%nat) eqn:L; simpl.
  - apply Nat.ltb_lt in L.
    pose proof (fill_motion_profiles_none sps (mm_profiles msg) 0 [] ltac:(lia)) as Hn.
    destruct (fill_motion_profiles _ _ _ _) as [[[arr i] log]|] eqn:F; simpl.
    + split; [discriminate|]. intros [H|H]; [lia|]. apply Hn in H. discriminate.
    + split; [intros _; right; apply Hn; reflexivity | reflexivity].
  - apply Nat.ltb_ge in L. split; [intros _; left; exact L | reflexivity].
Qed.

(** ** The sensor loop of [add_init_profiles_msgs] *)

Lemma add_sensor_profiles_msg_ok GN vdef mdef sid (s : sensor) (w w1 : world) (s0 : device_server) :
  w.(w_servers) !! sid = Some s0 ->
  add_sensor_profiles_msg GN vdef mdef sid s w = (Ok tt, w1) ->
  s.(s_kind) <> OtherSensor /\
  exists s1 new, w1.(w_servers) !! sid = Some s1 /\
    s1.(ds_init_msgs) = (s0.(ds_init_msgs) ++ new)%list /\
    (length new <= 1)%nat /\ Forall (fun m => nonempty_profiles_msg m = true) new.
Proof.
  intros Hs H. unfold add_sensor_profiles_msg in H.
  destruct (s_kind s) eqn:K.
  1,2: destruct (prepare_video_profiles_messeges GN (s_name s) (s_profiles s) vdef) as [[msg log]|];
       [|unfold undefined_behaviour, throw in H; discriminate H].
  3: destruct (prepare_motion_profiles_messeges GN (s_name s) (s_profiles s) mdef) as [[msg log]|];
       [|unfold undefined_behaviour, throw in H; discriminate H].
  4: unfold throw in H; discriminate H.
  all: split; [discriminate|].
  all: unfold mbind, M_bind, modify in H; simpl in H.
  all: match type of H with context [if ?c then _ else _] => destruct c eqn:P end.
  all: try (unfold mret, M_ret in H; injection H as <-; exists s0, [];
            rewrite app_nil_r; simpl; auto; fail).
  all: unfold add_init_msg, update_server in H; simpl in H; rewrite Hs in H; injection H as <-.
  all: eexists _, [_]; simpl; rewrite lookup_insert_eq; split; [reflexivity|].
  all: split; [reflexivity|]; split; [simpl; lia|]; constructor; [exact P|constructor].
Qed.

Lemma add_init_profiles_loop_ok GN vdef mdef sid (sensors : list sensor) :
  forall (w w' : world) (s0 : device_server),
  w.(w_servers) !! sid = Some s0 ->
  add_init_profiles_loop GN vdef mdef sid sensors w = (Ok tt, w') ->
  Forall (fun s => s.(s_kind) <> OtherSensor) sensors /\
  exists s1 new, w'.(w_servers) !! sid = Some s1 /\
    s1.(ds_init_msgs) = (s0.(ds_init_msgs) ++ new)%list /\
    (length new <= length sensors)%nat /\ Forall (fun m => nonempty_profiles_msg m = true) new.
Proof.
  induction sensors as [|s sensors IH]; intros w w' s0 Hs H; simpl in H.
  - unfold mret, M_ret in H. injection H as <-. split; [constructor|].
    exists s0, []. rewrite app_nil_r. simpl. auto.
  - unfold mbind, M_bind in H.
    destruct (add_sensor_profiles_msg GN vdef mdef sid s w) as [[[]|e] w1] eqn:E; [|discriminate H].
    destruct (add_sensor_profiles_msg_ok _ _ _ _ _ _ _ _ Hs E) as (Hk & s1 & new1 & Hs1 & Hm1 & Hl1 & Hf1).
    destruct (IH _ _ _ Hs1 H) as (Hall & s2 & new2 & Hs2 & Hm2 & Hl2 & Hf2).
    split; [constructor; assumption|]. exists s2, (new1 ++ new2)%list.
    rewrite Hm2, Hm1, app_assoc. split; [exact Hs2|]. split; [reflexivity|].
    split; [rewrite length_app; simpl; lia | apply Forall_app; auto].
Qed.

(** X7: when [add_init_profiles_msgs] returns normally, no sensor of the
    device is of an unsupported kind, and the server's replay queue has
    only grown at its end, by at most one message per sensor, each a
    video or motion profiles message announcing at least one profile. *)
Theorem add_init_profiles_msgs_appends (GROUP_NAME_SIZE : nat)
    (vdef : video_stream_profiles_msg) (mdef : motion_stream_profiles_msg)
    (dev : device) (server : nat) (w w' : world) (s0 : device_server) :
  w.(w_servers) !! server = Some s0 ->
  add_init_profiles_msgs GROUP_NAME_SIZE vdef mdef dev server w = (Ok tt, w') ->
  Forall (fun s => s.(s_kind) <> OtherSensor) dev.(dev_sensors) /\
  exists s1 new, w'.(w_servers) !! server = Some s1 /\
    s1.(ds_init_msgs) = (s0.(ds_init_msgs) ++ new)%list /\
    (length new <= length dev.(dev_sensors))%nat /\
    Forall (fun m => nonempty_profiles_msg m = true) new.
Proof. apply add_init_profiles_loop_ok. Qed.

(** ** Topic root *)

Lemma strncmp_prefix_app (p rest : string) :
  no_nul p -> strncmp (String.append p rest) p (String.length p) = 0%Z.
Proof.
  induction p as [|c p IH]; intros Hp; [reflexivity|].
  destruct Hp as [Hc Hp]. simpl. rewrite Ascii.eqb_refl.
  destruct (Ascii.eqb c NUL) eqn:E; [apply Ascii.eqb_eq in E; contradiction|].
  apply IH. exact Hp.
Qed.

Lemma get_topic_root_strip_app (di : device_info) (rest : string) :
  di.(name) = String.append DEVICE_NAME_PREFIX rest -> rest <> EmptyString ->
  get_topic_root di = String.append RS_ROOT (String.append rest (String.append "/" di.(serial))).
Proof.
  intros Hn Hr. unfold get_topic_root. rewrite Hn.
  replace ((DEVICE_NAME_PREFIX_CCH <? String.length (String.append DEVICE_NAME_PREFIX rest))%nat)
    with true.
  2:{ symmetry. apply Nat.ltb_lt. rewrite string_length_append.
      destruct rest as [|c rest]; [congruence|]. unfold DEVICE_NAME_PREFIX_CCH. simpl. lia. }
  unfold DEVICE_NAME_PREFIX_CCH. change 16%nat with (String.length DEVICE_NAME_PREFIX).
  rewrite strncmp_prefix_app by exact no_nul_prefix.
  rewrite string_erase_front_app. reflexivity.
Qed.

(** X8: whenever the model name is "Intel RealSense " followed by at least
    one more byte, the topic root is built from what follows the prefix. *)
Theorem get_topic_root_strips_prefix (di : device_info) (rest : string) :
  di.(name) = String.append DEVICE_NAME_PREFIX rest -> rest <> EmptyString ->
  get_topic_root di = String.append RS_ROOT (String.append rest (String.append "/" di.(serial))).
Proof. apply get_topic_root_strip_app. Qed.

(** X9: the topic root does not tell apart a model name "Intel RealSense X"
    from the bare model name "X" (of at most 16 bytes) with the same
    serial number. *)
Theorem get_topic_root_prefix_collision (di1 di2 : device_info) :
  di1.(name) = String.append DEVICE_NAME_PREFIX di2.(name) -> di2.(name) <> EmptyString ->
  (String.length di2.(name) <= 16)%nat -> di1.(serial) = di2.(serial) ->
  get_topic_root di1 = get_topic_root di2.
Proof.
  intros Hn Hne Hl Hs. rewrite (get_topic_root_strip_app di1 di2.(name) Hn Hne), Hs.
  unfold get_topic_root, DEVICE_NAME_PREFIX_CCH.
  replace ((16 <? String.length (name di2))%nat) with false
    by (symmetry; apply Nat.ltb_ge; exact Hl).
  reflexivity.
Qed.

(** ** The detach handler *)

(** X10: detaching a device that has no entry in the handlers map throws
    [std::out_of_range] from [map::at] before any other call: no stream
    is stopped, nothing is erased or retracted. *)
Theorem on_device_disconnected_unregistered (dev : device) (w : world) :
  w.(w_handlers) !! dev.(dev_handle) = None ->
  on_device_disconnected dev w = (Exc "map::at", w).
Proof.
  intros H. unfold on_device_disconnected, mbind, M_bind, handlers_at. rewrite H. reflexivity.
Qed.

(** ** Start-up of [main] *)

(** X11: the start-up checks of [main] let it go on to its run loop only
    when the domain is unset or at most 232, [participant->init]
    succeeds and [broadcaster.run()] returns true. *)
Theorem main_startup_run_loop_requires (domain_arg : option dds_domain_id)
    (participant_init_ok broadcaster_run_ok : bool) :
  main_startup domain_arg participant_init_ok broadcaster_run_ok = MainRunLoop ->
  (match domain_arg with Some domain => (domain <= 232)%N | None => True end) /\
  participant_init_ok = true /\ broadcaster_run_ok = true.
Proof.
  unfold main_startup. intros H. destruct domain_arg as [domain|].
  - destruct ((232 <? domain)%N) eqn:E; [discriminate|].
    apply N.ltb_ge in E.
    destruct participant_init_ok, broadcaster_run_ok; simpl in H; try discriminate. auto.
  - destruct participant_init_ok, broadcaster_run_ok; simpl in H; try discriminate. auto.
Qed.

(** ** The attach handler, run to its end *)

Lemma msgs_only_refl w : msgs_only w w.
Proof. repeat split; auto. Qed.

Lemma add_init_msg_msgs_only w0 sid msg : keeps (msgs_only w0) (add_init_msg sid msg).
Proof.
  intros w (Hh & Hn & Hc & Ha & Ht & Hs). unfold add_init_msg, update_server.
  destruct (w_servers w !! sid) as [s|] eqn:E; simpl; [|repeat split; auto].
  repeat split; auto. intros sid'. simpl.
  destruct (decide (sid' = sid)) as [->|Hne].
  - rewrite lookup_insert_eq, <- Hs, E. reflexivity.
  - rewrite lookup_insert_ne by congruence. apply Hs.
Qed.

Lemma add_init_profiles_loop_keeps GN vdef mdef sid sensors (P : world -> Prop) :
  (forall msg, keeps P (add_init_msg sid msg)) -> (forall l, keeps P (modify (add_log l))) ->
  keeps P (add_init_profiles_loop GN vdef mdef sid sensors).
Proof.
  intros Hmsg Hlog.
  induction sensors as [|s sensors IH]; simpl; [apply keeps_ret|].
  apply keeps_bind; [|intros; exact IH].
  unfold add_sensor_profiles_msg. destruct (s_kind s).
  1,2: destruct (prepare_video_profiles_messeges GN (s_name s) (s_profiles s) vdef) as [[msg log]|].
  5: destruct (prepare_motion_profiles_messeges GN (s_name s) (s_profiles s) mdef) as [[msg log]|].
  1,3,5: apply keeps_bind; [apply Hlog|intros []];
         case_match; [apply Hmsg | apply keeps_ret].
  all: apply keeps_throw.
Qed.

Lemma init_dds_device_msgs_only GN vdef mdef dev sid w0 :
  keeps (msgs_only w0) (init_dds_device GN vdef mdef dev sid).
Proof.
  unfold init_dds_device, add_init_device_header_msg, add_init_profiles_msgs.
  apply keeps_bind; [apply add_init_msg_msgs_only | intros _].
  apply add_init_profiles_loop_keeps; [intros; apply add_init_msg_msgs_only|].
  intros l. apply keeps_modify. intros w (Hh & Hn & Hc & Ha & Ht & Hs).
  repeat split; auto.
Qed.

Lemma update_server_errors sid f :
  triple (fun _ => True) (update_server sid f) (fun _ _ => True)
    (fun e _ => e = "undefined behaviour").
Proof. intros w _. unfold update_server. destruct (w_servers w !! sid); reflexivity. Qed.

Lemma init_dds_device_errors GN vdef mdef dev sid :
  triple (fun _ => True) (init_dds_device GN vdef mdef dev sid) (fun _ _ => True)
    (fun e _ => e ∈ attach_errors).
Proof.
  assert (Hmsg : forall msg, triple (fun _ => True) (add_init_msg sid msg) (fun _ _ => True)
                                    (fun e _ => e ∈ attach_errors)).
  { intros msg. eapply triple_conseq; [apply update_server_errors|auto|auto|].
    intros e w ->. unfold attach_errors. apply list_elem_of_In. simpl. tauto. }
  unfold init_dds_device, add_init_device_header_msg, add_init_profiles_msgs.
  apply (triple_bind (fun _ _ => True)); [apply Hmsg|intros _].
  induction (dev_sensors dev) as [|s sensors IH]; simpl; [apply triple_ret; auto|].
  apply (triple_bind (fun _ _ => True)); [|intros _; exact IH].
  unfold add_sensor_profiles_msg. destruct (s_kind s).
  1,2: destruct (prepare_video_profiles_messeges GN (s_name s) (s_profiles s) vdef) as [[msg log]|].
  5: destruct (prepare_motion_profiles_messeges GN (s_name s) (s_profiles s) mdef) as [[msg log]|].
  1,3,5: apply (triple_bind (fun _ _ => True)); [apply triple_modify; auto|intros []];
         case_match; [apply Hmsg | apply triple_ret; auto].
  all: apply triple_throw; intros w _; unfold attach_errors; apply list_elem_of_In; simpl; tauto.
Qed.

Lemma elem_of_get_supported_streams (dev : device) (s : sensor) (sp : stream_profile) :
  s ∈ dev.(dev_sensors) -> sp ∈ s.(s_profiles) -> sp.(sp_stream_name) ∈ get_supported_streams dev.
Proof.
  intros Hs Hsp. unfold get_supported_streams.
  rewrite elem_of_remove_dups, list_elem_of_fmap. exists sp. split; [reflexivity|].
  apply list_elem_of_join. exists (s_profiles s). split; [exact Hsp|].
  apply list_elem_of_fmap. eauto.
Qed.

(** The run of the attach handler: the handlers map gets the new entry
    unless the device has one; a normal return has started the first
    required profile of the first color sensor on the new server, which
    publishes under the device's topic root; a throw is one of the
    handler's own errors. *)
Lemma on_device_connected_run GN vdef mdef (dev : device) (w : world) :
  triple (fun w1 => w1 = w) (on_device_connected GN vdef mdef dev)
    (fun _ w' =>
       w'.(w_handlers) = emplaced w.(w_handlers) dev.(dev_handle)
         {| dh_info := rs2_device_to_info dev; dh_server := w.(w_next_id);
            dh_controller := S w.(w_next_id) |} /\
       exists color p s,
         List.find is_color_sensor dev.(dev_sensors) = Some color /\
         List.find (profile_matches RS2_STREAM_COLOR 30 RS2_FORMAT_RGB8 1280 720) color.(s_profiles) = Some p /\
         w'.(w_callbacks) = (w.(w_callbacks) ++ [(S w.(w_next_id), p.(sp_stream_name), w.(w_next_id))])%list /\
         w'.(w_servers) !! w.(w_next_id) = Some s /\
         s.(ds_topic_root) = (rs2_device_to_info dev).(topic_root) /\
         s.(ds_streams) = get_supported_streams dev /\
         s.(ds_image_headers) = <[p.(sp_stream_name) := profile_header p]> ∅)
    (fun what w' =>
       w'.(w_handlers) = emplaced w.(w_handlers) dev.(dev_handle)
         {| dh_info := rs2_device_to_info dev; dh_server := w.(w_next_id);
            dh_controller := S w.(w_next_id) |} /\
       what ∈ attach_errors).
Proof.
  set (n0 := w_next_id w). set (info := rs2_device_to_info dev).
  set (HE := emplaced (w_handlers w) (dev_handle dev)
               {| dh_info := info; dh_server := n0; dh_controller := S n0 |}).
  set (shape := fun (w1 : world) hs =>
         (server_shape <$> w1.(w_servers) !! n0) = Some (topic_root info, get_supported_streams dev, hs)).
  unfold on_device_connected.
  apply (triple_bind (fun _ w1 => w_handlers w1 = w_handlers w /\ w_next_id w1 = n0 /\
                                  w_callbacks w1 = w_callbacks w)).
  { apply triple_modify. intros w1 ->. simpl. auto. }
  intros _.
  apply (triple_bind (fun sid w2 => sid = n0 /\ w_handlers w2 = w_handlers w /\
                        w_next_id w2 = S n0 /\ w_callbacks w2 = w_callbacks w /\
                        (server_shape <$> w2.(w_servers) !! n0) = Some (topic_root info, [], ∅))).
  { intros w1 (Hh & Hn & Hc). unfold make_device_server, mbind, M_bind, alloc_id, modify. simpl.
    rewrite Hn. split; [reflexivity|]. split; [exact Hh|]. split; [reflexivity|].
    split; [exact Hc|]. rewrite lookup_insert_eq. reflexivity. }
  intros sid.
  apply (triple_bind (fun _ w3 => sid = n0 /\ w_handlers w3 = w_handlers w /\
                        w_next_id w3 = S n0 /\ w_callbacks w3 = w_callbacks w /\ shape w3 ∅)).
  { intros w2 (-> & Hh & Hn & Hc & Hs). unfold server_init, update_server.
    destruct (w_servers w2 !! n0) as [s|] eqn:E; simpl in Hs; [|discriminate Hs].
    injection Hs as Ht Hst Hhd. simpl. split; [reflexivity|]. split; [exact Hh|].
    split; [exact Hn|]. split; [exact Hc|]. unfold shape. simpl. rewrite lookup_insert_eq.
    unfold server_shape. simpl. rewrite Ht, Hhd. reflexivity. }
  intros _.
  apply (triple_bind (fun ctrl w4 => ctrl = S n0 /\ sid = n0 /\ w_handlers w4 = w_handlers w /\
                        w_callbacks w4 = w_callbacks w /\ shape w4 ∅)).
  { intros w3 (-> & Hh & Hn & Hc & Hs). unfold alloc_id. simpl. auto. }
  intros ctrl.
  apply (triple_bind (fun _ w5 => w_handlers w5 = HE /\ w_callbacks w5 = w_callbacks w /\
                        shape w5 ∅ /\ ctrl = S n0 /\ sid = n0)).
  { apply triple_modify. intros w4 (-> & -> & Hh & Hc & Hs). unfold HE, emplaced.
    rewrite Hh. destruct (w_handlers w !! dev_handle dev); simpl.
    - auto.
    - auto. }
  intros _.
  apply (triple_bind (fun _ w6 => w_handlers w6 = HE /\ w_callbacks w6 = w_callbacks w /\
                        shape w6 ∅ /\ ctrl = S n0 /\ sid = n0)).
  { intros w5 (Hh & Hc & Hs & -> & ->).
    pose proof (init_dds_device_msgs_only GN vdef mdef dev n0 w5 w5 (msgs_only_refl w5)) as Hm.
    pose proof (init_dds_device_errors GN vdef mdef dev n0 w5 I) as He.
    destruct (init_dds_device GN vdef mdef dev n0 w5) as [[[]|e] w6];
      destruct Hm as (Hh6 & Hn6 & Hc6 & Ha6 & Ht6 & Hs6).
    - split; [congruence|]. split; [congruence|]. split; [|auto].
      unfold shape in *. rewrite Hs6. exact Hs.
    - split; [congruence | exact He]. }
  intros _.
  apply (triple_bind (fun color w7 => List.find is_color_sensor dev.(dev_sensors) = Some color /\
                        w_handlers w7 = HE /\ w_callbacks w7 = w_callbacks w /\
                        shape w7 ∅ /\ ctrl = S n0 /\ sid = n0)).
  { intros w6 (Hh & Hrest). unfold first_color_sensor.
    destruct (List.find _ _) eqn:F; simpl.
    - exact (conj eq_refl (conj Hh Hrest)).
    - split; [exact Hh|]. unfold attach_errors. apply list_elem_of_In. simpl. tauto. }
  intros color.
  apply (triple_bind (fun p w8 =>
           List.find (profile_matches RS2_STREAM_COLOR 30 RS2_FORMAT_RGB8 1280 720) color.(s_profiles) = Some p /\
           List.find is_color_sensor dev.(dev_sensors) = Some color /\
           w_handlers w8 = HE /\ w_callbacks w8 = w_callbacks w /\
           shape w8 ∅ /\ ctrl = S n0 /\ sid = n0)).
  { intros w7 (Hcol & Hh & Hrest). unfold get_required_profile.
    destruct (List.find (profile_matches RS2_STREAM_COLOR 30 RS2_FORMAT_RGB8 1280 720)
                (s_profiles color)) eqn:F; simpl.
    - exact (conj eq_refl (conj Hcol (conj Hh Hrest))).
    - split; [exact Hh|]. unfold attach_errors. apply list_elem_of_In. simpl. tauto. }
  intros p.
  intros w8 (Hp & Hcol & Hh & Hc & Hs & -> & ->).
  assert (Hin : sp_stream_name p ∈ get_supported_streams dev).
  { apply (elem_of_get_supported_streams dev color p).
    - apply list_elem_of_In. exact (proj1 (List.find_some _ _ Hcol)).
    - apply list_elem_of_In. exact (proj1 (List.find_some _ _ Hp)). }
  unfold shape in Hs.
  destruct (w_servers w8 !! n0) as [s|] eqn:E; simpl in Hs; [|discriminate Hs].
  injection Hs as Ht Hst Hhd.
  unfold start_streaming, mbind, M_bind, set_image_header. rewrite E.
  rewrite bool_decide_eq_true_2 by (rewrite Hst; exact Hin). simpl.
  split; [exact Hh|].
  eexists color, p, _. split; [exact Hcol|]. split; [exact Hp|].
  split; [rewrite Hc; reflexivity|]. split; [apply lookup_insert_eq|].
  simpl. split; [exact Ht|]. split; [exact Hst|]. rewrite Hhd. reflexivity.
Qed.

(** X12: attaching a device whose handle already has an entry leaves the
    handlers map as it was, whether the handler returns or throws:
    [emplace] does not replace the entry, and the new server and
    controller are not kept in it. *)
Theorem on_device_connected_keeps_registered_handler (GROUP_NAME_SIZE : nat)
    (vdef : video_stream_profiles_msg) (mdef : motion_stream_profiles_msg)
    (dev : device) (w : world) (h0 : device_handler) :
  w.(w_handlers) !! dev.(dev_handle) = Some h0 ->
  (snd (on_device_connected GROUP_NAME_SIZE vdef mdef dev w)).(w_handlers) = w.(w_handlers).
Proof.
  intros H. pose proof (on_device_connected_run GROUP_NAME_SIZE vdef mdef dev w w eq_refl) as R.
  unfold emplaced in R. rewrite H in R.
  destruct (on_device_connected GROUP_NAME_SIZE vdef mdef dev w) as [[[]|e] w']; apply R.
Qed.

(** X13: when attaching returns normally, the device's entry is the new
    handler (unless it had one), and exactly one stream was started: the
    first 1280x720 RGB8 30 fps color profile of the first color sensor,
    whose callback is registered with the new controller and publishes to
    the new server; that server has the device's topic root, all the
    device's stream names, and an image header for that stream only. *)
Theorem on_device_connected_ok (GROUP_NAME_SIZE : nat)
    (vdef : video_stream_profiles_msg) (mdef : motion_stream_profiles_msg)
    (dev : device) (w w' : world) :
  on_device_connected GROUP_NAME_SIZE vdef mdef dev w = (Ok tt, w') ->
  w'.(w_handlers) = emplaced w.(w_handlers) dev.(dev_handle)
    {| dh_info := rs2_device_to_info dev; dh_server := w.(w_next_id);
       dh_controller := S w.(w_next_id) |} /\
  exists color p s,
    List.find is_color_sensor dev.(dev_sensors) = Some color /\
    List.find (profile_matches RS2_STREAM_COLOR 30 RS2_FORMAT_RGB8 1280 720) color.(s_profiles) = Some p /\
    w'.(w_callbacks) = (w.(w_callbacks) ++ [(S w.(w_next_id), p.(sp_stream_name), w.(w_next_id))])%list /\
    w'.(w_servers) !! w.(w_next_id) = Some s /\
    s.(ds_topic_root) = (rs2_device_to_info dev).(topic_root) /\
    s.(ds_streams) = get_supported_streams dev /\
    s.(ds_image_headers) = <[p.(sp_stream_name) := profile_header p]> ∅.
Proof.
  intros Hrun. pose proof (on_device_connected_run GROUP_NAME_SIZE vdef mdef dev w w eq_refl) as R.
  rewrite Hrun in R. exact R.
Qed.

(** X14: the attach handler never throws [set_image_header]'s error for
    an undeclared stream: the server was initialized with every stream
    name of the device, the required profile among them. *)
Theorem on_device_connected_stream_declared (GROUP_NAME_SIZE : nat)
    (vdef : video_stream_profiles_msg) (mdef : motion_stream_profiles_msg)
    (dev : device) (w : world) (what : string) (w' : world) :
  on_device_connected GROUP_NAME_SIZE vdef mdef dev w = (Exc what, w') ->
  forall stream_name, what <> ("stream '" +:+ stream_name +:+ "' does not exist").
Proof.
  intros Hrun stream_name.
  pose proof (on_device_connected_run GROUP_NAME_SIZE vdef mdef dev w w eq_refl) as R.
  rewrite Hrun in R. destruct R as [_ Hwhat].
  unfold attach_errors in Hwhat. apply list_elem_of_In in Hwhat. simpl in Hwhat.
  intros ->. destruct Hwhat as [H|[H|[H|[H|[]]]]]; discriminate H.
Qed.

(** ** Streaming *)

(** X15: once [start_streaming] has returned for a profile, a frame of
    that stream whose transport write succeeds is published to the
    server, and nothing is logged. *)
Theorem start_streaming_then_frame_published (ctrl sid : nat) (sp : stream_profile)
    (w w1 : world) (size : nat) :
  start_streaming ctrl sid sp w = (Ok tt, w1) ->
  frame_callback sid true {| f_stream_name := sp.(sp_stream_name); f_data_size := size |} w1 =
    (Ok tt, emit (EvPublish sid sp.(sp_stream_name) size) w1).
Proof.
  intros H. unfold start_streaming, mbind, M_bind, set_image_header in H.
  destruct (w_servers w !! sid) as [s|] eqn:E; [|discriminate H].
  case_bool_decide; [|discriminate H]. simpl in H. injection H as <-.
  unfold frame_callback, try_catch, publish_image. simpl.
  rewrite lookup_insert_eq. simpl. rewrite lookup_insert_eq. reflexivity.
Qed.

(** ** Witnesses *)

Lemma prepare_video_profiles_messeges_filters_witness :
  (String.length "RGB Camera" < 32)%nat /\
  (length (List.filter is_video example_mixed_profiles) <= length example_video_msg.(vm_profiles))%nat /\
  exists out,
    prepare_video_profiles_messeges 32 "RGB Camera" example_mixed_profiles example_video_msg =
      Some (out, illegal_profile_log <$> List.filter (fun sp => negb (is_video sp)) example_mixed_profiles) /\
    out.(vm_group_name) = "RGB Camera" /\
    out.(vm_num_of_profiles) = Z.of_nat (length (List.filter is_video example_mixed_profiles)) /\
    length out.(vm_profiles) = length example_video_msg.(vm_profiles) /\
    (forall j, (j < length (List.filter is_video example_mixed_profiles))%nat ->
       out.(vm_profiles) !! j = (to_video_stream_profile <$> List.filter is_video example_mixed_profiles) !! j) /\
    (forall j, (length (List.filter is_video example_mixed_profiles) <= j)%nat ->
       out.(vm_profiles) !! j = example_video_msg.(vm_profiles) !! j).
Proof.
  split; [vm_compute; lia|]. split; [vm_compute; lia|].
  apply prepare_video_profiles_messeges_filters; vm_compute; lia.
Defined.

Lemma prepare_motion_profiles_messeges_filters_witness :
  (String.length "Motion Module" < 32)%nat /\
  (length (List.filter is_motion example_mixed_profiles) <= length example_motion_msg.(mm_profiles))%nat /\
  exists out,
    prepare_motion_profiles_messeges 32 "Motion Module" example_mixed_profiles example_motion_msg =
      Some (out, illegal_profile_log <$> List.filter (fun sp => negb (is_motion sp)) example_mixed_profiles) /\
    out.(mm_group_name) = "Motion Module" /\
    out.(mm_num_of_profiles) = Z.of_nat (length (List.filter is_motion example_mixed_profiles)) /\
    length out.(mm_profiles) = length example_motion_msg.(mm_profiles) /\
    (forall j, (j < length (List.filter is_motion example_mixed_profiles))%nat ->
       out.(mm_profiles) !! j = (to_motion_stream_profile <$> List.filter is_motion example_mixed_profiles) !! j) /\
    (forall j, (length (List.filter is_motion example_mixed_profiles) <= j)%nat ->
       out.(mm_profiles) !! j = example_motion_msg.(mm_profiles) !! j).
Proof.
  split; [vm_compute; lia|]. split; [vm_compute; lia|].
  apply prepare_motion_profiles_messeges_filters; vm_compute; lia.
Defined.

Lemma add_init_profiles_msgs_appends_witness :
  example_server_world.(w_servers) !! 0 = Some example_server /\
  add_init_profiles_msgs 32 example_video_msg example_motion_msg example_device 0 example_server_world =
    (Ok tt, snd (add_init_profiles_msgs 32 example_video_msg example_motion_msg example_device 0
                   example_server_world)) /\
  Forall (fun s => s.(s_kind) <> OtherSensor) example_device.(dev_sensors) /\
  exists s1 new,
    (snd (add_init_profiles_msgs 32 example_video_msg example_motion_msg example_device 0
            example_server_world)).(w_servers) !! 0 = Some s1 /\
    s1.(ds_init_msgs) = (example_server.(ds_init_msgs) ++ new)%list /\
    (length new <= length example_device.(dev_sensors))%nat /\
    Forall (fun m => nonempty_profiles_msg m = true) new.
Proof.
  split; [vm_compute; reflexivity|]. split; [vm_compute; reflexivity|].
  apply (add_init_profiles_msgs_appends 32 example_video_msg example_motion_msg example_device 0
           example_server_world _ example_server); vm_compute; reflexivity.
Defined.

Lemma get_topic_root_strips_prefix_witness :
  (info_of "Intel RealSense D435" "11223344").(name) = String.append DEVICE_NAME_PREFIX "D435" /\
  "D435" <> EmptyString /\
  get_topic_root (info_of "Intel RealSense D435" "11223344") =
    String.append RS_ROOT (String.append "D435"
      (String.append "/" (info_of "Intel RealSense D435" "11223344").(serial))).
Proof.
  split; [reflexivity|]. split; [discriminate|].
  apply get_topic_root_strips_prefix; [reflexivity | discriminate].
Defined.

Lemma get_topic_root_prefix_collision_witness :
  (info_of "Intel RealSense D435" "11223344").(name) =
    String.append DEVICE_NAME_PREFIX (info_of "D435" "11223344").(name) /\
  (info_of "D435" "11223344").(name) <> EmptyString /\
  (String.length (info_of "D435" "11223344").(name) <= 16)%nat /\
  (info_of "Intel RealSense D435" "11223344").(serial) = (info_of "D435" "11223344").(serial) /\
  get_topic_root (info_of "Intel RealSense D435" "11223344") = get_topic_root (info_of "D435" "11223344").
Proof.
  split; [reflexivity|]. split; [discriminate|]. split; [vm_compute; lia|]. split; [reflexivity|].
  apply get_topic_root_prefix_collision; [reflexivity | discriminate | vm_compute; lia | reflexivity].
Defined.

Lemma on_device_disconnected_unregistered_witness :
  empty_world.(w_handlers) !! example_device.(dev_handle) = None /\
  on_device_disconnected example_device empty_world = (Exc "map::at", empty_world).
Proof.
  split; [reflexivity|]. apply on_device_disconnected_unregistered. reflexivity.
Defined.

Lemma on_device_connected_keeps_registered_handler_witness :
  example_attached_world.(w_handlers) !! example_device.(dev_handle) = Some example_handler /\
  (snd (on_device_connected 32 example_video_msg example_motion_msg example_device
          example_attached_world)).(w_handlers) = example_attached_world.(w_handlers).
Proof.
  split; [vm_compute; reflexivity|].
  apply (on_device_connected_keeps_registered_handler 32 example_video_msg example_motion_msg
           example_device example_attached_world example_handler).
  vm_compute. reflexivity.
Defined.

Lemma on_device_connected_ok_witness :
  on_device_connected 32 example_video_msg example_motion_msg example_device empty_world =
    (Ok tt, example_attached_world) /\
  example_attached_world.(w_handlers) = emplaced empty_world.(w_handlers) example_device.(dev_handle)
    {| dh_info := rs2_device_to_info example_device; dh_server := empty_world.(w_next_id);
       dh_controller := S empty_world.(w_next_id) |} /\
  exists color p s,
    List.find is_color_sensor example_device.(dev_sensors) = Some color /\
    List.find (profile_matches RS2_STREAM_COLOR 30 RS2_FORMAT_RGB8 1280 720) color.(s_profiles) = Some p /\
    example_attached_world.(w_callbacks) =
      (empty_world.(w_callbacks) ++ [(S empty_world.(w_next_id), p.(sp_stream_name), empty_world.(w_next_id))])%list /\
    example_attached_world.(w_servers) !! empty_world.(w_next_id) = Some s /\
    s.(ds_topic_root) = (rs2_device_to_info example_device).(topic_root) /\
    s.(ds_streams) = get_supported_streams example_device /\
    s.(ds_image_headers) = <[p.(sp_stream_name) := profile_header p]> ∅.
Proof.
  split; [vm_compute; reflexivity|].
  apply (on_device_connected_ok 32 example_video_msg example_motion_msg example_device empty_world).
  vm_compute. reflexivity.
Defined.

Lemma on_device_connected_stream_declared_witness :
  on_device_connected 32 example_video_msg example_motion_msg example_unsupported_device
      example_attached_world =
    (Exc "Sensor type is not supported (only video & motion sensors are supported)",
     snd (on_device_connected 32 example_video_msg example_motion_msg example_unsupported_device
            example_attached_world)) /\
  "Sensor type is not supported (only video & motion sensors are supported)" <>
    ("stream '" +:+ "Color" +:+ "' does not exist").
Proof.
  split; [vm_compute; reflexivity|].
  apply (on_device_connected_stream_declared 32 example_video_msg example_motion_msg
           example_unsupported_device example_attached_world _
           (snd (on_device_connected 32 example_video_msg example_motion_msg example_unsupported_device
                   example_attached_world))).
  vm_compute. reflexivity.
Defined.

Lemma main_startup_run_loop_requires_witness :
  main_startup (Some 5%N) true true = MainRunLoop /\
  (5 <= 232)%N /\ true = true /\ true = true.
Proof.
  split; [reflexivity|].
  apply (main_startup_run_loop_requires (Some 5%N) true true). reflexivity.
Defined.

Lemma start_streaming_then_frame_published_witness :
  start_streaming 1 0 example_color_profile example_server_world =
    (Ok tt, snd (start_streaming 1 0 example_color_profile example_server_world)) /\
  frame_callback 0 true {| f_stream_name := example_color_profile.(sp_stream_name); f_data_size := 4096 |}
      (snd (start_streaming 1 0 example_color_profile example_server_world)) =
    (Ok tt, emit (EvPublish 0 example_color_profile.(sp_stream_name) 4096)
              (snd (start_streaming 1 0 example_color_profile example_server_world))).
Proof.
  split; [vm_compute; reflexivity|].
  apply (start_streaming_then_frame_published 1 0 example_color_profile example_server_world).
  vm_compute. reflexivity.
Defined.
